(** * Warehouse inventory manager: a shallow embedding and its properties

    The development follows [inventory_manager.py] (class [InventoryManager]),
    [analytics.py] (class [InventoryAnalytics]) and the handlers of [cli.py]
    that change the store.

    Modelling conventions.
    - A product is the Python [dict] the code works on: a finite map from
      field names to strings ([gmap string string]); the inventory is the
      Python list of these dicts, in store order.  The records of a store are
      distinct dict objects (that is what [csv.DictReader] and the CLI handler
      produce), so the list of their values describes the store.
    - A Python exception is a value [Raise e] of the [result] type; an
      operation that raises leaves the manager as it was, as the code performs
      no mutation before the raising expression.
    - [int(...)], [str(...)], [float(...)], [in] on strings and binary64
      arithmetic are the Python built-ins; they are modelled in module [Py]
      on byte strings (ASCII letters, digits and white space).  [str.lower]
      folds the letters of all of Unicode: it is a function taken from the
      interpreter (class [Py.Unicode]), known on ASCII text.
    - Floating-point numbers are IEEE 754 binary64 values ([spec_float] with
      [prec = 53] and [emax = 1024]), rounded to nearest even.
    - The data file is modelled by the rows handed to [csv.DictWriter], after
      its projection on the header fields; quoting and parsing of the CSV text
      are not modelled, and what [csv.DictReader] yields from a file is taken
      from the surroundings ([read_rows]). *)

From Stdlib Require Import ZArith String Ascii List Bool Lia.
From Stdlib Require Import Permutation Sorted RelationClasses.
From Stdlib Require Import Decimal DecimalString DecimalZ.
From Stdlib Require Import SpecFloat Zpower.
From stdpp Require Import base option list gmap strings fin_maps.

Local Open Scope string_scope.
Local Open Scope list_scope.
Local Open Scope Z_scope.

(** ** Exceptions as results *)

Inductive exn : Type :=
  | KeyError
  | ValueError
  | OverflowError.

Inductive result (A : Type) : Type :=
  | Ok (a : A)
  | Raise (e : exn).

Arguments Ok {A} a.
Arguments Raise {A} e.

#[global] Instance result_ret : MRet result := fun A a => Ok a.

#[global] Instance result_bind : MBind result := fun A B f m =>
  match m with
  | Ok a => f a
  | Raise e => Raise e
  end.

Definition is_ok {A} (r : result A) : bool :=
  match r with
  | Ok _ => true
  | Raise _ => false
  end.

(** [for x in l: ...] with a body that may raise. *)
Fixpoint mapM {A B} (f : A -> result B) (l : list A) : result (list B) :=
  match l with
  | [] => Ok []
  | x :: l' => y ← f x; ys ← mapM f l'; Ok (y :: ys)
  end.

(** ** The Python built-ins the code relies on *)

Module Py.

(** *** Strings *)

(** White space as [str.strip] sees it, among the ASCII characters. *)
Definition isspace (c : ascii) : bool :=
  let n := nat_of_ascii c in
  ((9 <=? n)%nat && (n <=? 13)%nat) || ((28 <=? n)%nat && (n <=? 32)%nat).

Fixpoint lstrip (s : string) : string :=
  match s with
  | String c s' => if isspace c then lstrip s' else s
  | EmptyString => EmptyString
  end.

Fixpoint rstrip (s : string) : string :=
  match s with
  | String c s' =>
      match rstrip s' with
      | EmptyString => if isspace c then EmptyString else String c EmptyString
      | r => String c r
      end
  | EmptyString => EmptyString
  end.

Definition strip (s : string) : string := rstrip (lstrip s).

(** [c.lower()] on one ASCII character. *)
Definition lower_ascii (c : ascii) : ascii :=
  let n := nat_of_ascii c in
  if ((65 <=? n)%nat && (n <=? 90)%nat)%bool then ascii_of_nat (n + 32) else c.

(** The letters [A] to [Z] folded, the other characters kept. *)
Fixpoint ascii_lower (s : string) : string :=
  match s with
  | String c s' => String (lower_ascii c) (ascii_lower s')
  | EmptyString => EmptyString
  end.

(** ASCII text: every byte is below 128. *)
Fixpoint is_ascii (s : string) : bool :=
  match s with
  | String c s' => (nat_of_ascii c <? 128)%nat && is_ascii s'
  | EmptyString => true
  end.

(** [s.lower()].  Python folds the letters of all of Unicode, by the tables
    of the interpreter, and the strings here are the UTF-8 bytes of the text:
    the function is taken from the interpreter, together with what it does
    on ASCII text, where it folds [A] to [Z] and nothing else. *)
Class Unicode : Type := {
  lower : string -> string;
  lower_ascii_text : forall s, is_ascii s = true -> lower s = ascii_lower s
}.

(** [needle in hay] on strings. *)
Fixpoint contains (needle hay : string) : bool :=
  String.prefix needle hay ||
  match hay with
  | String _ hay' => contains needle hay'
  | EmptyString => false
  end.

(** *** Decimal numerals *)

Definition digit_of (c : ascii) : option (uint -> uint) :=
  match c with
  | "0"%char => Some D0
  | "1"%char => Some D1
  | "2"%char => Some D2
  | "3"%char => Some D3
  | "4"%char => Some D4
  | "5"%char => Some D5
  | "6"%char => Some D6
  | "7"%char => Some D7
  | "8"%char => Some D8
  | "9"%char => Some D9
  | _ => None
  end.

(** The longest prefix of the form [digit (["_"] digit)*], with the rest
    of the string; [None] when the string does not start with a digit. *)
Fixpoint digitpart (s : string) : option (uint * string) :=
  match s with
  | String c s' =>
      match digit_of c with
      | Some d =>
          match s' with
          | String "_"%char s'' =>
              match digitpart s'' with
              | Some (u, rest) => Some (d u, rest)
              | None => Some (d Nil, s')
              end
          | _ =>
              match digitpart s' with
              | Some (u, rest) => Some (d u, rest)
              | None => Some (d Nil, s')
              end
          end
      | None => None
      end
  | EmptyString => None
  end.

Definition split_sign (s : string) : bool * string :=
  match s with
  | String "-"%char s' => (true, s')
  | String "+"%char s' => (false, s')
  | _ => (false, s)
  end.

(** [int(s)] for a string [s], base ten. *)
Definition int (s : string) : result Z :=
  let '(neg, body) := split_sign (strip s) in
  match digitpart body with
  | Some (u, EmptyString) =>
      Ok (if neg then Z.opp (Z.of_uint u) else Z.of_uint u)
  | _ => Raise ValueError
  end.

(** [str(z)] for an integer [z]. *)
Definition str (z : Z) : string := NilZero.string_of_int (Z.to_int z).

(** *** Floating point: IEEE 754 binary64 *)

Definition prec : Z := 53.
Definition emax : Z := 1024.

Abbreviation float := spec_float.

Definition fadd : float -> float -> float := SFadd prec emax.
Definition fmul : float -> float -> float := SFmul prec emax.
Definition flt : float -> float -> bool := SFltb.
Definition feq : float -> float -> bool := SFeqb.

(** The integer [z] rounded to the nearest binary64 value. *)
Definition float_of_Z (z : Z) : float := binary_normalize prec emax z 0 false.

(** The conversion of an [int] operand in mixed arithmetic; Python raises
    [OverflowError] ("int too large to convert to float") where the rounded
    value would be infinite. *)
Definition float_of_int (z : Z) : result float :=
  match float_of_Z z with
  | S754_infinity _ => Raise OverflowError
  | f => Ok f
  end.

(** [z * f] for an [int] [z] and a [float] [f]. *)
Definition int_mul_float (z : Z) (f : float) : result float :=
  x ← float_of_int z; Ok (fmul x f).

(** [z <= f] for an [int] [z] and a [float] [f]: Python compares the two
    exactly, without converting [z]. *)
Definition int_le_float (z : Z) (f : float) : bool :=
  match f with
  | S754_nan => false
  | S754_infinity s => negb s
  | S754_zero _ => z <=? 0
  | S754_finite s m e =>
      let v := cond_Zopp s (Zpos m) in
      if 0 <=? e then z <=? v * 2 ^ e else z * 2 ^ (- e) <=? v
  end.

(** The binary64 value nearest to [n * 10 ^ e], for [0 <= n]. *)
Definition float_of_decimal (neg : bool) (n e : Z) : float :=
  match n with
  | Zpos m =>
      if 0 <=? e
      then binary_normalize prec emax (cond_Zopp neg (Zpos m * 10 ^ e)) 0 false
      else SFdiv prec emax (S754_finite neg m 0)
                 (S754_finite false (Z.to_pos (10 ^ (- e))) 0)
  | _ => S754_zero neg
  end.

(** [digitpart] ["." [digitpart]] or ["." digitpart], with the rest. *)
Definition mantissa (s : string) : option (uint * uint * string) :=
  match digitpart s with
  | Some (i, String "."%char rest) =>
      match digitpart rest with
      | Some (f, rest') => Some (i, f, rest')
      | None => Some (i, Nil, rest)
      end
  | Some (i, rest) => Some (i, Nil, rest)
  | None =>
      match s with
      | String "."%char rest =>
          match digitpart rest with
          | Some (f, rest') => Some (Nil, f, rest')
          | None => None
          end
      | _ => None
      end
  end.

(** The optional exponent [("e" | "E") ["+" | "-"] digitpart], to the end
    of the string. *)
Definition exponent (s : string) : option Z :=
  match s with
  | EmptyString => Some 0
  | String c s' =>
      if Ascii.eqb (lower_ascii c) "e"%char then
        let '(neg, body) := split_sign s' in
        match digitpart body with
        | Some (u, EmptyString) =>
            Some (if neg then Z.opp (Z.of_uint u) else Z.of_uint u)
        | _ => None
        end
      else None
  end.

(** [float(s)] for a string [s]. *)
Definition float_of_str (s : string) : result float :=
  let '(neg, body) := split_sign (strip s) in
  let low := ascii_lower body in
  if String.eqb low "inf" || String.eqb low "infinity" then Ok (S754_infinity neg)
  else if String.eqb low "nan" then Ok S754_nan
  else
    match mantissa body with
    | Some (i, f, rest) =>
        match exponent rest with
        | Some e =>
            Ok (float_of_decimal neg (Z.of_uint (Decimal.app i f))
                                 (e - Z.of_nat (Decimal.nb_digits f)))
        | None => Raise ValueError
        end
    | None => Raise ValueError
    end.

(** [0.25], the literal of [show_stock_distribution]. *)
Definition quarter : float := S754_finite false 4503599627370496 (-54).

(** [l[:n]] for a list [l] and an [int] [n]. *)
Definition slice_to {A} (n : Z) (l : list A) : list A :=
  if n <? 0 then take (Z.to_nat (Z.of_nat (length l) + n)) l
  else take (Z.to_nat n) l.

(** [list.sort(key=..., reverse=True)] on keys that are floats.  The sort is
    stable, also with [reverse=True], and compares keys with [<] only.  On
    keys without NaN the result is determined by these two facts; it is
    computed here by inserting each element, from the last to the first, in
    front of the first element whose key is not greater. *)
Fixpoint insert_desc {A} (key : A -> float) (x : A) (l : list A) : list A :=
  match l with
  | [] => [x]
  | y :: l' =>
      if flt (key x) (key y) then y :: insert_desc key x l'
      else x :: y :: l'
  end.

Fixpoint sort_desc {A} (key : A -> float) (l : list A) : list A :=
  match l with
  | [] => []
  | x :: l' => insert_desc key x (sort_desc key l')
  end.

(** [sum(...)] over floats: the start value is the [int] [0], which the
    first addition converts to [0.0] (of an empty sequence Python returns the
    [int] [0] itself, which is equal to [0.0]). *)
Definition sum (l : list float) : float :=
  fold_left fadd l (float_of_Z 0).

(** *** Dictionaries *)

(** [d[k]] *)
Definition getitem {V} (d : gmap string V) (k : string) : result V :=
  match d !! k with
  | Some v => Ok v
  | None => Raise KeyError
  end.

(** [bool(d)]: a dict is true when it is not empty. *)
Definition truthy {V} (d : gmap string V) : bool :=
  negb (bool_decide (d = ∅)).

(** A dict whose iteration order matters: keys in order of first insertion. *)
Fixpoint odict_get {V} (k : string) (d : list (string * V)) : option V :=
  match d with
  | [] => None
  | (k', v) :: d' => if decide (k' = k) then Some v else odict_get k d'
  end.

Fixpoint odict_set {V} (k : string) (v : V) (d : list (string * V))
  : list (string * V) :=
  match d with
  | [] => [(k, v)]
  | (k', v') :: d' =>
      if decide (k' = k) then (k, v) :: d' else (k', v') :: odict_set k v d'
  end.

(** [b == z] for a [bool] [b] and an [int] [z]: [True] is [1], [False] is [0]. *)
Definition bool_eq_int (b : bool) (z : Z) : bool := Z.b2z b =? z.

(** *** Sums of integers, sorted items *)

(** [sum(...)] over integers. *)
Definition sum_int (l : list Z) : Z := fold_left Z.add l 0.

(** [sorted(d.items())] of a dict with [str] keys.  Tuples are compared by
    their first component that differs, and the keys of a dict differ, so the
    values are never compared; strings are compared code point by code point,
    which for UTF-8 text is the order of the bytes. *)
Fixpoint insert_asc {V} (x : string * V) (l : list (string * V))
  : list (string * V) :=
  match l with
  | [] => [x]
  | y :: l' =>
      if String.ltb y.1 x.1 then y :: insert_asc x l' else x :: y :: l'
  end.

Fixpoint sorted_items {V} (d : list (string * V)) : list (string * V) :=
  match d with
  | [] => []
  | x :: d' => insert_asc x (sorted_items d')
  end.

End Py.

(** ** The records and the manager *)

Abbreviation product := (gmap string string).

(** What an operation takes from its surroundings: the date of
    [datetime.now()], whether the data file can be opened (when it cannot,
    [save_inventory] and [load_inventory] report the error and go on), and
    what [list(csv.DictReader(file))] yields from a file that holds the given
    rows.  The CSV text is not modelled, and the rows read are not always the
    rows written: the file is read with universal newlines, so that a
    carriage return in a value comes back as a line feed, and the reader
    skips blank lines, so that records without fields are lost. *)
Record env : Type := {
  today : string;
  fs_ok : bool;
  read_rows : list product -> list product
}.

(** [self.inventory] and the rows of [self.data_file] ([None]: no file). *)
Record manager : Type := {
  inventory : list product;
  data_file : option (list product)
}.

Definition set_inventory (inv : list product) (m : manager) : manager :=
  {| inventory := inv; data_file := data_file m |}.

(** A list comprehension or loop with a filter that may raise. *)
Fixpoint filterM {A} (f : A -> result bool) (l : list A) : result (list A) :=
  match l with
  | [] => Ok []
  | x :: l' =>
      b ← f x; r ← filterM f l'; Ok (if b : bool then x :: r else r)
  end.

(** [int(product[field])] and [float(product[field])] *)
Definition int_field (p : product) (field : string) : result Z :=
  v ← Py.getitem p field; Py.int v.

Definition float_field (p : product) (field : string) : result Py.float :=
  v ← Py.getitem p field; Py.float_of_str v.

(** *** [csv.DictWriter] *)

Module Csv.

(** The row written for [row] under the header [fieldnames]: one value per
    header field, the empty string where [row] has none
    ([rowdict.get(key, self.restval)]). *)
Definition written_row (fieldnames : gset string) (row : product) : product :=
  map_imap (fun k _ => Some (default "" (row !! k))) (gset_to_gmap () fieldnames).

(** [DictWriter._dict_to_list] with [extrasaction='raise']. *)
Definition dict_to_list (fieldnames : gset string) (row : product)
  : result product :=
  if bool_decide (dom row ⊆ fieldnames) then Ok (written_row fieldnames row)
  else Raise ValueError.

(** [writer.writerows(rows)]: the rows reach the file one by one, up to the
    first one that raises. *)
Fixpoint writerows (fieldnames : gset string) (rows : list product)
  : list product :=
  match rows with
  | [] => []
  | r :: rows' =>
      match dict_to_list fieldnames r with
      | Ok w => w :: writerows fieldnames rows'
      | Raise _ => []
      end
  end.

End Csv.

(** *** [InventoryManager] *)

(** Without a file the inventory stays as it is; an exception while the file
    is read empties it; otherwise it becomes what the reader yields. *)
Definition load_inventory (e : env) (m : manager) : manager :=
  match data_file m with
  | None => m
  | Some rows => set_inventory (if fs_ok e then read_rows e rows else []) m
  end.

Definition init (e : env) (file : option (list product)) : manager :=
  load_inventory e {| inventory := []; data_file := file |}.

Definition save_inventory (e : env) (m : manager) : manager :=
  match inventory m with
  | [] => m
  | first :: _ =>
      if fs_ok e
      then {| inventory := inventory m;
              data_file := Some (Csv.writerows (dom first) (inventory m)) |}
      else m
  end.

Definition add_product (e : env) (product_data : product) (m : manager)
  : manager :=
  let product_data := <["last_updated" := today e]> product_data in
  save_inventory e (set_inventory (inventory m ++ [product_data]) m).

Fixpoint get_product (product_id : string) (inv : list product)
  : result (option product) :=
  match inv with
  | [] => Ok None
  | p :: inv' =>
      pid ← Py.getitem p "product_id";
      if decide (pid = product_id) then Ok (Some p)
      else get_product product_id inv'
  end.

(** The loop of [update_product]: the inventory after the update of the
    first match, [None] when the loop ends without a match. *)
Fixpoint update_loop (e : env) (product_id : string) (updates : product)
  (inv : list product) : result (option (list product)) :=
  match inv with
  | [] => Ok None
  | p :: inv' =>
      pid ← Py.getitem p "product_id";
      if decide (pid = product_id)
      then Ok (Some (<["last_updated" := today e]> (updates ∪ p) :: inv'))
      else r ← update_loop e product_id updates inv'; Ok (option_map (cons p) r)
  end.

Definition update_product (e : env) (product_id : string) (updates : product)
  (m : manager) : result (manager * bool) :=
  r ← update_loop e product_id updates (inventory m);
  match r with
  | Some inv' => Ok (save_inventory e (set_inventory inv' m), true)
  | None => Ok (m, false)
  end.

Definition delete_product (e : env) (product_id : string) (m : manager)
  : result (manager * bool) :=
  let initial_len := length (inventory m) in
  kept ← filterM (fun p => pid ← Py.getitem p "product_id";
                           Ok (negb (bool_decide (pid = product_id))))
                 (inventory m);
  let m := set_inventory kept m in
  if (length (inventory m) <? initial_len)%nat
  then Ok (save_inventory e m, true)
  else Ok (m, false).

Definition update_quantity (e : env) (product_id : string)
  (quantity_change : Z) (m : manager) : result (manager * bool) :=
  product ← get_product product_id (inventory m);
  match product with
  | Some p =>
      if Py.truthy p then
        current_qty ← int_field p "quantity";
        let new_qty := current_qty + quantity_change in
        if new_qty <? 0 then Ok (m, false)
        else
          r ← update_product e product_id {["quantity" := Py.str new_qty]} m;
          Ok (r.1, true)
      else Ok (m, false)
  | None => Ok (m, false)
  end.

Definition get_low_stock_items (inv : list product) : result (list product) :=
  filterM (fun p => quantity ← int_field p "quantity";
                    reorder_level ← int_field p "reorder_level";
                    Ok (quantity <=? reorder_level)) inv.

(** [quantity * unit_price] of one record, as both value computations of the
    manager and the analytics write it. *)
Definition product_value (p : product) : result Py.float :=
  quantity ← int_field p "quantity";
  unit_price ← float_field p "unit_price";
  Py.int_mul_float quantity unit_price.

Fixpoint total_loop (total : Py.float) (inv : list product) : result Py.float :=
  match inv with
  | [] => Ok total
  | p :: inv' => v ← product_value p; total_loop (Py.fadd total v) inv'
  end.

Definition get_total_inventory_value (inv : list product) : result Py.float :=
  total_loop (S754_zero false) inv.

Record category_stats : Type := {
  count : Z;
  total_quantity : Z;
  total_value : Py.float
}.

Definition empty_stats : category_stats :=
  {| count := 0; total_quantity := 0; total_value := S754_zero false |}.

Fixpoint summary_loop (summary : list (string * category_stats))
  (inv : list product) : result (list (string * category_stats)) :=
  match inv with
  | [] => Ok summary
  | p :: inv' =>
      category ← Py.getitem p "category";
      let st := default empty_stats (Py.odict_get category summary) in
      quantity ← int_field p "quantity";
      v ← product_value p;
      summary_loop
        (Py.odict_set category
           {| count := count st + 1;
              total_quantity := total_quantity st + quantity;
              total_value := Py.fadd (total_value st) v |} summary)
        inv'
  end.

Definition get_category_summary (inv : list product)
  : result (list (string * category_stats)) :=
  summary_loop [] inv.

Definition search_products `{U : Py.Unicode} (keyword : string)
  (inv : list product) : result (list product) :=
  let keyword_lower := Py.lower keyword in
  filterM (fun p =>
             name ← Py.getitem p "product_name";
             if Py.contains keyword_lower (Py.lower name) then Ok true
             else
               category ← Py.getitem p "category";
               Ok (Py.contains keyword_lower (Py.lower category))) inv.

(** *** [InventoryAnalytics] *)

Inductive level : Type :=
  | Critical
  | Low
  | Normal
  | High.

#[global] Instance level_eq_dec : EqDecision level.
Proof. solve_decision. Defined.

(** The [if]/[elif] chain of [show_stock_distribution]. *)
Definition stock_level (qty reorder : Z) : result level :=
  if qty =? 0 then Ok Critical
  else
    t ← Py.int_mul_float reorder Py.quarter;
    if Py.int_le_float qty t then Ok Critical
    else if qty <=? reorder then Ok Low
    else if qty <=? reorder * 2 then Ok Normal
    else Ok High.

Definition product_level (p : product) : result level :=
  qty ← int_field p "quantity";
  reorder ← int_field p "reorder_level";
  stock_level qty reorder.

Record buckets : Type := {
  critical : list product;
  low : list product;
  normal : list product;
  high : list product
}.

Definition bucket (lv : level) (b : buckets) : list product :=
  match lv with
  | Critical => critical b
  | Low => low b
  | Normal => normal b
  | High => high b
  end.

(** [bucket.append(product)] *)
Definition bucket_append (lv : level) (p : product) (b : buckets) : buckets :=
  match lv with
  | Critical => {| critical := critical b ++ [p]; low := low b;
                   normal := normal b; high := high b |}
  | Low => {| critical := critical b; low := low b ++ [p];
              normal := normal b; high := high b |}
  | Normal => {| critical := critical b; low := low b;
                 normal := normal b ++ [p]; high := high b |}
  | High => {| critical := critical b; low := low b;
               normal := normal b; high := high b ++ [p] |}
  end.

Fixpoint distribution_loop (b : buckets) (inv : list product) : result buckets :=
  match inv with
  | [] => Ok b
  | p :: inv' =>
      lv ← product_level p; distribution_loop (bucket_append lv p b) inv'
  end.

(** The four lists [show_stock_distribution] builds before it prints. *)
Definition show_stock_distribution (inv : list product) : result buckets :=
  distribution_loop {| critical := []; low := []; normal := []; high := [] |} inv.

(** The rows [show_top_products_by_value] prints, in order: the pairs
    [(product, value)] of [products_with_value[:top_n]]. *)
Definition show_top_products_by_value (top_n : Z) (inv : list product)
  : result (list (product * Py.float)) :=
  products_with_value ← mapM (fun p => value ← product_value p; Ok (p, value)) inv;
  Ok (Py.slice_to top_n (Py.sort_desc snd products_with_value)).

(** [total_value] of [show_category_analysis]: the sum of the category
    totals, in the order of the summary. *)
Definition category_total_value (inv : list product) : result Py.float :=
  summary ← get_category_summary inv;
  Ok (Py.sum (map (fun kv => total_value kv.2) summary)).

(** *** The add handler of the command line *)

Inductive add_outcome : Type :=
  | Added
  | AllFieldsRequired
  | AlreadyExists
  | ErrorAdding (e : exn).

(** [handle_add_product], from the eight values read and stripped at the
    prompt: the manager afterwards and the message printed. *)
Definition handle_add_product (e : env)
  (product_id product_name category quantity unit_price reorder_level
     supplier warehouse_location : string) (m : manager)
  : manager * add_outcome :=
  let values := [product_id; product_name; category; quantity; unit_price;
                 reorder_level; supplier; warehouse_location] in
  let product_data : product :=
    list_to_map (zip ["product_id"; "product_name"; "category"; "quantity";
                      "unit_price"; "reorder_level"; "supplier";
                      "warehouse_location"] values) in
  if negb (forallb (fun v => negb (String.eqb v "")) values)
  then (m, AllFieldsRequired)
  else
    match get_product product_id (inventory m) with
    | Raise x => (m, ErrorAdding x)
    | Ok (Some p) =>
        if Py.truthy p then (m, AlreadyExists)
        else (add_product e product_data m, Added)
    | Ok None => (add_product e product_data m, Added)
    end.

(** *** The filters by category and by supplier *)

(** The category is compared in full, the supplier is looked for as a
    substring; both without regard to case. *)
Definition get_inventory_by_category `{U : Py.Unicode} (category : string)
  (inv : list product) : result (list product) :=
  filterM (fun p => c ← Py.getitem p "category";
                    Ok (String.eqb (Py.lower c) (Py.lower category))) inv.

Definition get_inventory_by_supplier `{U : Py.Unicode} (supplier : string)
  (inv : list product) : result (list product) :=
  filterM (fun p => s ← Py.getitem p "supplier";
                    Ok (Py.contains (Py.lower supplier) (Py.lower s))) inv.

(** *** The other reports of [InventoryAnalytics] *)

(** [sum(int(p['quantity']) for p in self.manager.inventory)], the quantity
    of the TOTAL row of [show_category_analysis]. *)
Definition total_quantity_row (inv : list product) : result Z :=
  qs ← mapM (fun p => int_field p "quantity") inv; Ok (Py.sum_int qs).

Module Supplier.

(** The entry of one supplier in [supplier_data]. *)
Record stats : Type := {
  products : Z;
  total_quantity : Z;
  total_value : Py.float;
  low_stock_items : Z
}.

(** The value the [defaultdict] creates for a new supplier. *)
Definition new : stats :=
  {| products := 0; total_quantity := 0; total_value := S754_zero false;
     low_stock_items := 0 |}.

End Supplier.

(** The loop of [show_supplier_performance] over the inventory. *)
Fixpoint supplier_loop (supplier_data : list (string * Supplier.stats))
  (inv : list product) : result (list (string * Supplier.stats)) :=
  match inv with
  | [] => Ok supplier_data
  | p :: inv' =>
      supplier ← Py.getitem p "supplier";
      qty ← int_field p "quantity";
      unit_price ← float_field p "unit_price";
      value ← Py.int_mul_float qty unit_price;
      let st := default Supplier.new (Py.odict_get supplier supplier_data) in
      reorder_level ← int_field p "reorder_level";
      supplier_loop
        (Py.odict_set supplier
           {| Supplier.products := Supplier.products st + 1;
              Supplier.total_quantity := Supplier.total_quantity st + qty;
              Supplier.total_value := Py.fadd (Supplier.total_value st) value;
              Supplier.low_stock_items :=
                if qty <=? reorder_level then Supplier.low_stock_items st + 1
                else Supplier.low_stock_items st |}
           supplier_data)
        inv'
  end.

(** The rows [show_supplier_performance] prints: [sorted_suppliers]. *)
Definition show_supplier_performance (inv : list product)
  : result (list (string * Supplier.stats)) :=
  supplier_data ← supplier_loop [] inv;
  Ok (Py.sort_desc (fun kv => Supplier.total_value kv.2) supplier_data).

(** [by_supplier[product['supplier']].append(product)] for each record. *)
Fixpoint group_loop (by_supplier : list (string * list product))
  (low_stock : list product) : result (list (string * list product)) :=
  match low_stock with
  | [] => Ok by_supplier
  | p :: low_stock' =>
      supplier ← Py.getitem p "supplier";
      group_loop
        (Py.odict_set supplier
           (default [] (Py.odict_get supplier by_supplier) ++ [p]) by_supplier)
        low_stock'
  end.

(** The two lines printed for one record. *)
Record recommendation : Type := {
  rec_id : string;
  rec_name : string;
  rec_current : Z;
  rec_reorder : Z;
  rec_order : Z
}.

(** The quantity to order brings the stock to twice the reorder level. *)
Definition recommend (p : product) : result recommendation :=
  qty ← int_field p "quantity";
  reorder ← int_field p "reorder_level";
  let shortage := reorder * 2 - qty in
  product_id ← Py.getitem p "product_id";
  product_name ← Py.getitem p "product_name";
  Ok {| rec_id := product_id; rec_name := product_name; rec_current := qty;
        rec_reorder := reorder; rec_order := shortage |}.

(** The report of [show_reorder_recommendations]: [None] is the message that
    all products are adequately stocked, [Some] the groups in the order they
    are printed. *)
Definition show_reorder_recommendations (inv : list product)
  : result (option (list (string * list recommendation))) :=
  low_stock ← get_low_stock_items inv;
  if bool_decide (low_stock = []) then Ok None
  else
    by_supplier ← group_loop [] low_stock;
    groups ← mapM (fun kv : string * list product =>
                     lines ← mapM recommend kv.2; Ok (kv.1, lines))
                  (Py.sorted_items by_supplier);
    Ok (Some groups).

(** *** The other handlers of the command line *)

(** What a handler prints, besides the messages of the manager: [Done b]
    stands for a call of the manager's method that returned [b]. *)
Inductive outcome : Type :=
  | Done (b : bool)
  | NotFound
  | NoUpdates
  | Cancelled
  | InvalidInteger.

(** The fields [handle_update_product] asks for. *)
Definition update_fields : list string :=
  ["product_name"; "category"; "quantity"; "unit_price"; "reorder_level";
   "supplier"; "warehouse_location"].

(** The loop over the fields of [handle_update_product]; [answer field] is the
    line typed at the prompt of [field], and the prompt shows
    [product[field]]. *)
Fixpoint collect_updates (p : product) (answer : string -> string)
  (fields : list string) (updates : product) : result product :=
  match fields with
  | [] => Ok updates
  | field :: fields' =>
      _ ← Py.getitem p field;
      let value := Py.strip (answer field) in
      collect_updates p answer fields'
        (if String.eqb value "" then updates else <[field := value]> updates)
  end.

(** [handle_update_product], from the line typed for the id and the lines
    typed for the fields.  An exception is not caught: it ends the
    program. *)
Definition handle_update_product (e : env) (line : string)
  (answer : string -> string) (m : manager) : result (manager * outcome) :=
  let product_id := Py.strip line in
  product ← get_product product_id (inventory m);
  match product with
  | Some p =>
      if Py.truthy p then
        updates ← collect_updates p answer update_fields ∅;
        if Py.truthy updates then
          r ← update_product e product_id updates m; Ok (r.1, Done r.2)
        else Ok (m, NoUpdates)
      else Ok (m, NotFound)
  | None => Ok (m, NotFound)
  end.

(** [handle_delete_product], from the line typed for the id and the line
    typed at the confirmation. *)
Definition handle_delete_product `{U : Py.Unicode} (e : env)
  (line confirm : string) (m : manager) : result (manager * outcome) :=
  let product_id := Py.strip line in
  product ← get_product product_id (inventory m);
  match product with
  | Some p =>
      if Py.truthy p then
        let confirm := Py.lower (Py.strip confirm) in
        if String.eqb confirm "yes" then
          r ← delete_product e product_id m; Ok (r.1, Done r.2)
        else Ok (m, Cancelled)
      else Ok (m, NotFound)
  | None => Ok (m, NotFound)
  end.

(** [handle_update_quantity], from the line typed for the id and the line
    typed for the change.  The current quantity is printed before the [try];
    a [ValueError] of the conversion of the line or of the call of
    [update_quantity] is caught. *)
Definition handle_update_quantity (e : env) (line change : string)
  (m : manager) : result (manager * outcome) :=
  let product_id := Py.strip line in
  product ← get_product product_id (inventory m);
  match product with
  | Some p =>
      if Py.truthy p then
        _ ← Py.getitem p "quantity";
        match (change ← Py.int (Py.strip change);
               update_quantity e product_id change m) with
        | Ok r => Ok (r.1, Done r.2)
        | Raise ValueError => Ok (m, InvalidInteger)
        | Raise x => Raise x
        end
      else Ok (m, NotFound)
  | None => Ok (m, NotFound)
  end.

(** ** Notions used to state the properties *)

(** A record with a [product_id], other than [id]. *)
Definition other_id (id : string) (p : product) : Prop :=
  exists i, p !! "product_id" = Some i /\ i <> id.

(** The test of the comprehension of [delete_product]. *)
Definition keeps (id : string) (p : product) : bool :=
  negb (bool_decide (p !! "product_id" = Some id)).

(** The ids of the records of a store, in store order. *)
Definition product_ids (inv : list product) : list string :=
  omap (fun p : product => p !! "product_id") inv.

(** No two records of the store share a [product_id]. *)
Definition unique_ids (inv : list product) : Prop := NoDup (product_ids inv).

(** One request at the prompt of [handle_add_product]: the eight values, in
    the order they are asked for. *)
Record add_request : Type := {
  req_env : env;
  req_id : string;
  req_name : string;
  req_category : string;
  req_quantity : string;
  req_unit_price : string;
  req_reorder_level : string;
  req_supplier : string;
  req_location : string
}.

Definition handle_request (m : manager) (r : add_request) : manager :=
  (handle_add_product (req_env r) (req_id r) (req_name r) (req_category r)
     (req_quantity r) (req_unit_price r) (req_reorder_level r)
     (req_supplier r) (req_location r) m).1.

(** The test of [get_low_stock_items], as the specification words it:
    the quantity is at most the reorder level. *)
Definition at_or_below_reorder (p : product) : bool :=
  match int_field p "quantity", int_field p "reorder_level" with
  | Ok q, Ok r => bool_decide (q <= r)
  | _, _ => false
  end.

(** A record whose quantity and reorder level are integers. *)
Definition has_stock_fields (p : product) : Prop :=
  is_ok (int_field p "quantity") = true /\
  is_ok (int_field p "reorder_level") = true.

(** The quantity of the record is an integer, and it is not negative. *)
Definition nonneg_quantity (p : product) : bool :=
  match int_field p "quantity" with
  | Ok q => bool_decide (0 <= q)
  | Raise _ => false
  end.

(** The invariant of C2 on a store. *)
Definition quantities_nonneg (inv : list product) : Prop :=
  forallb nonneg_quantity inv = true.

(** All the records of the store have the same fields. *)
Definition same_fields (inv : list product) : Prop :=
  exists fields : gset string, Forall (fun r : product => dom r = fields) inv.

(** The reading of C3 on the value returned: the call returns the new
    quantity. *)
Definition returns_new_quantity (r : result (manager * bool)) (new_qty : Z)
  : Prop :=
  exists m' b, r = Ok (m', b) /\ Py.bool_eq_int b new_qty = true.

(** The record is put in the bucket [lv]. *)
Definition has_level (lv : level) (p : product) : bool :=
  match product_level p with
  | Ok lv' => bool_decide (lv' = lv)
  | Raise _ => false
  end.

(** The buckets as the specification describes them, for the quantity [q]
    and the reorder level [r]; [q <= 0.25 * r] is written [4 * q <= r]. *)
Definition in_bucket (lv : level) (q r : Z) : Prop :=
  match lv with
  | Critical => q = 0 \/ 4 * q <= r
  | Low => r < 4 * q /\ q <= r
  | Normal => r < q /\ q <= 2 * r
  | High => 2 * r < q
  end.

(** A record with an integer quantity and a reorder level that is a
    non-negative integer below [2 ^ 53], where [reorder * 0.25] is exact. *)
Definition stock_in_range (p : product) : Prop :=
  exists q r, int_field p "quantity" = Ok q /\
              int_field p "reorder_level" = Ok r /\ 0 <= r < 2 ^ 53.

(** The record is of category [c]. *)
Definition has_category (c : string) (p : product) : bool :=
  bool_decide (p !! "category" = Some c).






Fixpoint no_space (s : string) : bool :=
  match s with
  | String c s' => negb (Py.isspace c) && no_space s'
  | EmptyString => true
  end.

(** A string that does not begin with an underscore. *)
Definition no_underscore (s : string) : Prop :=
  match s with
  | String c _ => c <> "_"%char
  | EmptyString => True
  end.

(** A record with the fields the filters and the search read. *)
Definition has_search_fields (p : product) : Prop :=
  is_Some (p !! "product_name") /\ is_Some (p !! "category").

(** The test of [get_inventory_by_category] on a record with a category. *)
Definition category_matches `{U : Py.Unicode} (category : string)
  (p : product) : bool :=
  match p !! "category" with
  | Some c => String.eqb (Py.lower c) (Py.lower category)
  | None => false
  end.

(** The test of [search_products] on a record with both fields. *)
Definition keyword_matches `{U : Py.Unicode} (keyword : string)
  (p : product) : bool :=
  match p !! "product_name", p !! "category" with
  | Some n, Some c =>
      Py.contains (Py.lower keyword) (Py.lower n)
      || Py.contains (Py.lower keyword) (Py.lower c)
  | _, _ => false
  end.

(** A record of the supplier [s]. *)
Definition has_supplier (s : string) (p : product) : bool :=
  bool_decide (p !! "supplier" = Some s).

(** [s1 < s2] on strings. *)
Definition str_lt (s1 s2 : string) : Prop := String.ltb s1 s2 = true.

(** One choice of the main menu that changes the store, with what is typed
    at its prompts. *)
Inductive action : Type :=
  | AddProduct (r : add_request)
  | UpdateProduct (e : env) (line : string) (answer : string -> string)
  | DeleteProduct (e : env) (line confirm : string)
  | UpdateQuantity (e : env) (line change : string).

(** The branch of [main] for one choice. *)
Definition dispatch `{U : Py.Unicode} (m : manager) (a : action)
  : result manager :=
  match a with
  | AddProduct r => Ok (handle_request m r)
  | UpdateProduct e line answer =>
      r ← handle_update_product e line answer m; Ok r.1
  | DeleteProduct e line confirm =>
      r ← handle_delete_product e line confirm m; Ok r.1
  | UpdateQuantity e line change =>
      r ← handle_update_quantity e line change m; Ok r.1
  end.

(** The loop of [main] over a list of choices; an exception ends it. *)
Fixpoint main_loop `{U : Py.Unicode} (m : manager) (actions : list action)
  : result manager :=
  match actions with
  | [] => Ok m
  | a :: actions' => m' ← dispatch m a; main_loop m' actions'
  end.

(** ** Example stores *)

(** The surroundings of the examples.  Their records are ASCII text without
    line ends and have fields: a file of such rows reads back as it was
    written, and [str.lower] folds the letters [A] to [Z] alone. *)
Definition env0 : env :=
  {| today := "2024-05-17"; fs_ok := true; read_rows := fun rows => rows |}.

Definition ascii_folding : Py.Unicode :=
  {| Py.lower := Py.ascii_lower; Py.lower_ascii_text := fun s _ => eq_refl |}.

Definition record (product_id product_name category quantity unit_price
                   reorder_level : string) : product :=
  list_to_map [("product_id", product_id); ("product_name", product_name);
               ("category", category); ("quantity", quantity);
               ("unit_price", unit_price); ("reorder_level", reorder_level);
               ("supplier", "Acme"); ("warehouse_location", "A-1");
               ("last_updated", "2024-01-01")].

(** The store of the scenario of the specification. *)
Definition P001 : product := record "P001" "Laptop" "Electronics" "10" "100" "5".
Definition P002 : product := record "P002" "Mouse" "Electronics" "5" "50" "5".

Definition scenario : manager :=
  {| inventory := [P001; P002]; data_file := Some [P001; P002] |}.

(** A store in which two records carry the id [P001]. *)
Definition P001' : product := record "P001" "Laptop bag" "Accessories" "3" "20" "2".

Definition with_duplicates : manager :=
  {| inventory := [P002; P001; P001'; P001]; data_file := None |}.

(** The store that holds the single record [P001], built by adding it to a
    manager started without a data file. *)
Definition single : manager := add_product env0 P001 (init env0 None).

(** A store with a record of each level, and the two cases of a reorder
    level of 0. *)
Definition levels_store : list product :=
  [ record "L1" "Pen" "Office" "0" "1" "0";
    record "L2" "Ink" "Office" "3" "1" "0";
    record "L3" "Pad" "Office" "1" "1" "4";
    record "L4" "Clip" "Office" "5" "1" "5";
    record "L5" "Tape" "Office" "8" "1" "5";
    record "L6" "Glue" "Office" "11" "1" "5" ].

(** The buckets of [levels_store]. *)
Definition levels_buckets : buckets :=
  {| critical := [record "L1" "Pen" "Office" "0" "1" "0";
                  record "L3" "Pad" "Office" "1" "1" "4"];
     low := [record "L4" "Clip" "Office" "5" "1" "5"];
     normal := [record "L5" "Tape" "Office" "8" "1" "5"];
     high := [record "L2" "Ink" "Office" "3" "1" "0";
              record "L6" "Glue" "Office" "11" "1" "5"] |}.

Definition cents_store : list product :=
  [ record "F1" "Pen" "Office" "1" "0.1" "1";
    record "F2" "Ink" "Supplies" "1" "0.2" "1";
    record "F3" "Pad" "Supplies" "1" "0.3" "1" ].

Definition cents_summary : list (string * category_stats) :=
  [ ("Office", {| count := 1; total_quantity := 1;
                  total_value := S754_finite false 7205759403792794 (-56) |});
    ("Supplies", {| count := 2; total_quantity := 2;
                    total_value := S754_finite false 4503599627370496 (-53) |}) ].

(** A store with two records of the same value. *)
Definition ranked_store : list product :=
  [ record "R1" "Mouse" "Electronics" "5" "50" "5";
    record "R2" "Laptop" "Electronics" "10" "100" "5";
    record "R3" "Desk" "Furniture" "20" "50" "2";
    record "R4" "Lamp" "Furniture" "4" "12.5" "2" ].

(** A store read from a file that has no [last_updated] column. *)
Definition legacy : manager :=
  {| inventory := [delete "last_updated" P001; delete "last_updated" P002];
     data_file := Some [delete "last_updated" P001; delete "last_updated" P002] |}.

(** A store whose second row lost its [product_id]. *)
Definition damaged : manager :=
  {| inventory := [P001; delete "product_id" P002; P001'];
     data_file := None |}.

(** A store with two suppliers, its supplier table and its reorder report. *)
Definition P003 : product :=
  <["supplier" := "Bolt"]> (record "P003" "Desk" "Furniture" "2" "150" "4").

Definition two_suppliers : list product := [P001; P003; P002].

Definition two_suppliers_rows : list (string * Supplier.stats) :=
  [ ("Acme", {| Supplier.products := 2; Supplier.total_quantity := 15;
                Supplier.total_value := S754_finite false 5497558138880000 (-42);
                Supplier.low_stock_items := 1 |});
    ("Bolt", {| Supplier.products := 1; Supplier.total_quantity := 2;
                Supplier.total_value := S754_finite false 5277655813324800 (-44);
                Supplier.low_stock_items := 1 |}) ].

Definition two_suppliers_report : list (string * list recommendation) :=
  [ ("Acme", [ {| rec_id := "P002"; rec_name := "Mouse"; rec_current := 5;
                  rec_reorder := 5; rec_order := 5 |} ]);
    ("Bolt", [ {| rec_id := "P003"; rec_name := "Desk"; rec_current := 2;
                  rec_reorder := 4; rec_order := 6 |} ]) ].

(** Three choices at the menu: a new quantity for [P001], two units of
    [P002] taken out, [P001] deleted. *)
Definition session : list action :=
  [ UpdateProduct env0 " P001 "
      (fun field => if String.eqb field "quantity" then "7" else "");
    UpdateQuantity env0 "P002" "-2";
    DeleteProduct env0 "P001" " YES " ].

(** ** Auxiliary lemmas *)

(** *** The built-ins on sample inputs *)

Example int_samples :
  Py.int " 12 " = Ok 12 /\ Py.int "-0_7" = Ok (-7) /\ Py.int "+5" = Ok 5 /\
  Py.int "1__2" = Raise ValueError /\ Py.int "12_" = Raise ValueError /\
  Py.int "" = Raise ValueError /\ Py.int "1.5" = Raise ValueError /\
  Py.str (-15) = "-15" /\ Py.str 0 = "0".
Proof. repeat split; reflexivity. Qed.

(** [0.1 = 0x1.999999999999ap-4], [1e23 = 0x1.52d02c7e14af6p+76], the
    smallest subnormal, overflow to infinity, and the literal [0.25]. *)
Example float_samples :
  Py.float_of_str "0.1" = Ok (S754_finite false 7205759403792794 (-56)) /\
  Py.float_of_str "1e23" = Ok (S754_finite false 5960464477539062 24) /\
  Py.float_of_str "4.9e-324" = Ok (S754_finite false 1 (-1074)) /\
  Py.float_of_str "1e400" = Ok (S754_infinity false) /\
  Py.float_of_str "-0" = Ok (S754_zero true) /\
  Py.float_of_str " NaN " = Ok S754_nan /\
  Py.float_of_str "1_0.2_5" = Ok (S754_finite false 5770237022568448 (-49)) /\
  Py.float_of_str "1e" = Raise ValueError /\
  Py.float_of_str "0.25" = Ok Py.quarter.
Proof. repeat split; vm_compute; reflexivity. Qed.

(** [float(2 ** 53 + 1)] is rounded to even, and an [int] above the largest
    float does not convert. *)
Example float_of_int_samples :
  Py.float_of_int (2 ^ 53 + 1) = Ok (S754_finite false 4503599627370496 1) /\
  Py.float_of_int (2 ^ 1024 - 2 ^ 970 - 1)
    = Ok (S754_finite false 9007199254740991 971) /\
  Py.float_of_int (2 ^ 1024 - 2 ^ 970) = Raise OverflowError.
Proof. repeat split; vm_compute; reflexivity. Qed.

(** *** The result monad and the loops *)

Lemma bind_Ok {A B} (m : result A) (f : A -> result B) (b : B) :
  (m ≫= f) = Ok b -> exists a, m = Ok a /\ f a = Ok b.
Proof. destruct m as [a|x]; simpl; [eauto | discriminate]. Qed.

Ltac inv_bind H :=
  let a := fresh "a" in
  let Ha := fresh "Ha" in
  apply bind_Ok in H; destruct H as (a & Ha & H).

Lemma filterM_pure {A} (f : A -> result bool) (g : A -> bool) (l : list A) :
  Forall (fun x => f x = Ok (g x)) l -> filterM f l = Ok (List.filter g l).
Proof.
  induction 1 as [|x l Hx _ IH]; simpl; [reflexivity|].
  rewrite Hx, IH. reflexivity.
Qed.

Lemma filterM_inv {A} (f : A -> result bool) (l r : list A) :
  filterM f l = Ok r ->
  exists g, Forall (fun x => f x = Ok (g x)) l /\ r = List.filter g l.
Proof.
  revert r. induction l as [|x l IH]; simpl; intros r H.
  - exists (fun _ => true). split; [constructor | congruence].
  - inv_bind H. inv_bind H. destruct (IH _ Ha0) as (g & Hg & ->).
    injection H as <-.
    (* the test of [x] may differ from the one [g] records for an equal
       element further on: no such element, as [f] is a function *)
    exists (fun y => match f y with Ok b => b | Raise _ => false end).
    split.
    + constructor; [rewrite Ha; reflexivity|].
      eapply Forall_impl; [exact Hg|]. intros y Hy. simpl. rewrite Hy. reflexivity.
    + simpl. rewrite Ha.
      assert (E : List.filter g l =
                  List.filter (fun y => match f y with Ok b => b | Raise _ => false end) l).
      { clear -Hg. induction Hg as [|y l Hy _ IH]; simpl; [reflexivity|].
        rewrite Hy, IH. reflexivity. }
      rewrite E. reflexivity.
Qed.

(** *** Look-up, update and deletion by [product_id] *)

Lemma get_product_skip id l1 l2 :
  Forall (other_id id) l1 -> get_product id (l1 ++ l2) = get_product id l2.
Proof.
  induction 1 as [|x l1 (i & Hi & Hne) _ IH]; simpl; [reflexivity|].
  unfold Py.getitem. rewrite Hi. simpl. destruct (decide (i = id)); [contradiction | exact IH].
Qed.

Lemma get_product_here id p l :
  p !! "product_id" = Some id -> get_product id (p :: l) = Ok (Some p).
Proof.
  intros H. simpl. unfold Py.getitem. rewrite H. simpl.
  destruct (decide (id = id)); [reflexivity | contradiction].
Qed.

Lemma get_product_Some id inv p :
  get_product id inv = Ok (Some p) ->
  exists l1 l2, inv = l1 ++ p :: l2 /\ Forall (other_id id) l1 /\
                p !! "product_id" = Some id.
Proof.
  induction inv as [|x inv IH]; simpl; [discriminate|].
  intros H. inv_bind H. unfold Py.getitem in Ha.
  destruct (x !! "product_id") as [i|] eqn:Hi; [|discriminate].
  injection Ha as <-. destruct (decide (i = id)) as [->|Hne].
  - injection H as <-. exists [], inv. auto.
  - destruct (IH H) as (l1 & l2 & -> & Hl1 & Hp).
    exists (x :: l1), l2. repeat split; [|exact Hp].
    constructor; [exists i; auto | exact Hl1].
Qed.

Lemma get_product_None id inv :
  get_product id inv = Ok None <-> Forall (other_id id) inv.
Proof.
  split.
  - induction inv as [|x inv IH]; simpl; [constructor|].
    intros H. inv_bind H. unfold Py.getitem in Ha.
    destruct (x !! "product_id") as [i|] eqn:Hi; [|discriminate].
    injection Ha as <-. destruct (decide (i = id)) as [->|Hne]; [discriminate|].
    constructor; [exists i; auto | auto].
  - intros H. rewrite <- (app_nil_r inv). rewrite get_product_skip by exact H.
    reflexivity.
Qed.

Lemma update_loop_first e id updates l1 p l2 :
  Forall (other_id id) l1 -> p !! "product_id" = Some id ->
  update_loop e id updates (l1 ++ p :: l2) =
    Ok (Some (l1 ++ <["last_updated" := today e]> (updates ∪ p) :: l2)).
Proof.
  intros Hl1 Hp. induction Hl1 as [|x l1 (i & Hi & Hne) _ IH]; simpl.
  - unfold Py.getitem. rewrite Hp. simpl.
    destruct (decide (id = id)); [reflexivity | contradiction].
  - unfold Py.getitem. rewrite Hi. simpl.
    destruct (decide (i = id)); [contradiction|]. rewrite IH. reflexivity.
Qed.

Lemma delete_filter id inv :
  Forall (fun p => is_Some (p !! "product_id")) inv ->
  filterM (fun p => pid ← Py.getitem p "product_id";
                    Ok (negb (bool_decide (pid = id)))) inv
  = Ok (List.filter (keeps id) inv).
Proof.
  intros H. apply filterM_pure. eapply Forall_impl; [exact H|].
  intros p [i Hi]. simpl. unfold Py.getitem, keeps. rewrite Hi. simpl.
  do 2 f_equal. apply bool_decide_ext. split; congruence.
Qed.

Lemma filter_keeps_other id l :
  Forall (other_id id) l -> List.filter (keeps id) l = l.
Proof.
  induction 1 as [|x l (i & Hi & Hne) _ IH]; simpl; [reflexivity|].
  unfold keeps at 1. rewrite Hi, bool_decide_false by congruence. simpl.
  rewrite IH. reflexivity.
Qed.

Lemma other_id_is_Some id p : other_id id p -> is_Some (p !! "product_id").
Proof. intros (i & Hi & _). eauto. Qed.

(** *** What saving changes *)

Lemma save_inventory_inventory e m : inventory (save_inventory e m) = inventory m.
Proof.
  unfold save_inventory. destruct (inventory m) eqn:E; [exact E|].
  destruct (fs_ok e); [reflexivity | exact E].
Qed.

Lemma filter_keeps_length id l : (length (List.filter (keeps id) l) <= length l)%nat.
Proof.
  induction l as [|x l IH]; simpl; [lia|]. destruct (keeps id x); simpl; lia.
Qed.

Lemma filter_keeps_no_id id l :
  Forall (fun q : product => q !! "product_id" <> Some id) (List.filter (keeps id) l).
Proof.
  induction l as [|x l IH]; simpl; [constructor|].
  destruct (keeps id x) eqn:E; [|exact IH]. constructor; [|exact IH].
  unfold keeps in E. apply negb_true_iff, bool_decide_eq_false in E. exact E.
Qed.

Lemma add_product_inventory e d m :
  inventory (add_product e d m) = inventory m ++ [<["last_updated" := today e]> d].
Proof. unfold add_product. rewrite save_inventory_inventory. reflexivity. Qed.

Lemma product_ids_other id inv :
  Forall (other_id id) inv -> ~ In id (product_ids inv).
Proof.
  unfold product_ids. induction 1 as [|x l (i & Hi & Hne) _ IH]; simpl.
  - intros [].
  - rewrite Hi. simpl. intros [->|H]; [contradiction | exact (IH H)].
Qed.

Lemma found_truthy id inv p : get_product id inv = Ok (Some p) -> Py.truthy p = true.
Proof.
  intros H. apply get_product_Some in H as (_ & _ & _ & _ & Hp).
  unfold Py.truthy. apply negb_true_iff, bool_decide_eq_false.
  intros ->. rewrite lookup_empty in Hp. discriminate.
Qed.

Lemma handle_add_product_unique e id name cat qty price reorder sup loc m :
  unique_ids (inventory m) ->
  unique_ids (inventory (handle_add_product e id name cat qty price reorder
                           sup loc m).1).
Proof.
  intros Hu. unfold handle_add_product.
  match goal with |- context [negb (forallb ?f ?l)] => destruct (negb (forallb f l)) end;
    [exact Hu|].
  destruct (get_product id (inventory m)) as [[p|]|x] eqn:Hget; [| |exact Hu].
  - rewrite (found_truthy _ _ _ Hget). exact Hu.
  - simpl. rewrite add_product_inventory. unfold unique_ids, product_ids.
    rewrite omap_app. simpl.
    rewrite lookup_insert_ne by discriminate. rewrite lookup_insert_eq.
    apply NoDup_app. split; [exact Hu|]. split; [|apply NoDup_singleton].
    intros x Hx Hin. apply list_elem_of_singleton in Hin as ->.
    apply get_product_None, product_ids_other in Hget.
    apply Hget. apply list_elem_of_In. exact Hx.
Qed.

(** *** [int(str(z)) = z] *)

Lemma lstrip_no_space s : no_space s = true -> Py.lstrip s = s.
Proof.
  destruct s as [|c s]; simpl; [reflexivity|].
  intros H. apply andb_true_iff in H as [H _]. apply negb_true_iff in H.
  rewrite H. reflexivity.
Qed.

Lemma rstrip_no_space s : no_space s = true -> Py.rstrip s = s.
Proof.
  induction s as [|c s IH]; simpl; [reflexivity|].
  intros H. apply andb_true_iff in H as [Hc Hs]. apply negb_true_iff in Hc.
  rewrite (IH Hs), Hc. destruct s; reflexivity.
Qed.

Lemma strip_no_space s : no_space s = true -> Py.strip s = s.
Proof.
  intros H. unfold Py.strip. rewrite (lstrip_no_space _ H). apply rstrip_no_space, H.
Qed.

Lemma no_space_string_of_uint u : no_space (NilEmpty.string_of_uint u) = true.
Proof. induction u; simpl; auto. Qed.

Lemma digitpart_digit c d s :
  Py.digit_of c = Some d -> no_underscore s ->
  Py.digitpart (String c s) =
    match Py.digitpart s with
    | Some (u, rest) => Some (d u, rest)
    | None => Some (d Nil, s)
    end.
Proof.
  intros Hc Hs. simpl. rewrite Hc. destruct s as [|c' s']; [reflexivity|].
  simpl in Hs.
  destruct c' as [[] [] [] [] [] [] [] []]; try reflexivity.
  contradiction.
Qed.

Lemma no_underscore_string_of_uint u : no_underscore (NilEmpty.string_of_uint u).
Proof. destruct u; simpl; auto; discriminate. Qed.

Lemma digitpart_string_of_uint u :
  u <> Nil -> Py.digitpart (NilEmpty.string_of_uint u) = Some (u, EmptyString).
Proof.
  induction u as [|u IH|u IH|u IH|u IH|u IH|u IH|u IH|u IH|u IH|u IH];
    intros Hu; [contradiction|..];
    cbn [NilEmpty.string_of_uint];
    (erewrite digitpart_digit;
       [| reflexivity | apply no_underscore_string_of_uint]);
    (destruct u; [reflexivity | rewrite IH by discriminate; reflexivity ..]).
Qed.

Lemma digitpart_NilZero u :
  exists u', Py.digitpart (NilZero.string_of_uint u) = Some (u', EmptyString) /\
             Z.of_uint u' = Z.of_uint u.
Proof.
  destruct u; try (eexists; split; [apply digitpart_string_of_uint; discriminate
                                   | reflexivity]).
  exists (D0 Nil). split; reflexivity.
Qed.

Lemma split_sign_digits u :
  Py.split_sign (NilZero.string_of_uint u) = (false, NilZero.string_of_uint u).
Proof. destruct u; reflexivity. Qed.

Lemma no_space_NilZero u : no_space (NilZero.string_of_uint u) = true.
Proof. destruct u; try apply no_space_string_of_uint. reflexivity. Qed.

Lemma int_str (z : Z) : Py.int (Py.str z) = Ok z.
Proof.
  unfold Py.str, Py.int. rewrite <- (DecimalZ.of_to z) at 2.
  destruct (Z.to_int z) as [u|u]; cbn [NilZero.string_of_int Z.of_int].
  - rewrite strip_no_space by apply no_space_NilZero.
    rewrite split_sign_digits.
    destruct (digitpart_NilZero u) as (u' & -> & ->). reflexivity.
  - rewrite strip_no_space by (simpl; apply no_space_NilZero).
    cbn [Py.split_sign].
    destruct (digitpart_NilZero u) as (u' & -> & ->). reflexivity.
Qed.

Lemma update_loop_Some e id updates inv inv' :
  update_loop e id updates inv = Ok (Some inv') ->
  exists l1 p l2, inv = l1 ++ p :: l2 /\ Forall (other_id id) l1 /\
    p !! "product_id" = Some id /\
    inv' = l1 ++ <["last_updated" := today e]> (updates ∪ p) :: l2.
Proof.
  revert inv'. induction inv as [|x inv IH]; simpl; intros inv' H; [discriminate|].
  inv_bind H. unfold Py.getitem in Ha.
  destruct (x !! "product_id") as [i|] eqn:Hi; [|discriminate].
  injection Ha as <-. destruct (decide (i = id)) as [->|Hne].
  - injection H as <-. exists [], x, inv. auto.
  - inv_bind H. destruct a as [inv''|]; [|discriminate]. injection H as <-.
    destruct (IH _ Ha) as (l1 & p & l2 & -> & Hl1 & Hp & ->).
    exists (x :: l1), p, l2. repeat split; [|exact Hp].
    constructor; [exists i; auto | exact Hl1].
Qed.

Lemma update_product_inv e id updates m r :
  update_product e id updates m = Ok r ->
  r = (m, false) \/
  exists l1 p l2, inventory m = l1 ++ p :: l2 /\ Forall (other_id id) l1 /\
    p !! "product_id" = Some id /\ r.2 = true /\
    r.1 = save_inventory e
            (set_inventory (l1 ++ <["last_updated" := today e]> (updates ∪ p) :: l2) m).
Proof.
  unfold update_product. intros H. inv_bind H. destruct a as [inv'|].
  - injection H as <-. right.
    destruct (update_loop_Some _ _ _ _ _ Ha) as (l1 & p & l2 & E & Hl1 & Hp & ->).
    exists l1, p, l2. auto.
  - injection H as <-. left. reflexivity.
Qed.

Lemma update_quantity_accept e id delta m l1 p l2 cur :
  inventory m = l1 ++ p :: l2 -> Forall (other_id id) l1 ->
  p !! "product_id" = Some id -> int_field p "quantity" = Ok cur ->
  0 <= cur + delta ->
  update_quantity e id delta m =
    Ok (save_inventory e
          (set_inventory
             (l1 ++ <["last_updated" := today e]>
                      (<["quantity" := Py.str (cur + delta)]> p) :: l2) m),
        true).
Proof.
  intros Hinv Hl1 Hp Hq Hpos. unfold update_quantity.
  assert (Hget : get_product id (inventory m) = Ok (Some p)).
  { rewrite Hinv, get_product_skip by exact Hl1. apply get_product_here, Hp. }
  rewrite Hget. simpl. rewrite (found_truthy _ _ _ Hget), Hq. simpl.
  destruct (Z.ltb_spec (cur + delta) 0); [lia|].
  unfold update_product. rewrite Hinv, update_loop_first by assumption. simpl.
  rewrite <- insert_union_singleton_l. reflexivity.
Qed.

Lemma int_field_quantity_updated t v (p : product) :
  int_field (<["last_updated" := t]> (<["quantity" := v]> p)) "quantity" = Py.int v.
Proof.
  unfold int_field, Py.getitem.
  rewrite lookup_insert_ne by discriminate. rewrite lookup_insert_eq. reflexivity.
Qed.

(** *** Quantities *)

Lemma quantities_nonneg_app l1 l2 :
  quantities_nonneg (l1 ++ l2) <-> quantities_nonneg l1 /\ quantities_nonneg l2.
Proof. unfold quantities_nonneg. rewrite forallb_app. apply andb_true_iff. Qed.

Lemma quantities_nonneg_cons p l :
  quantities_nonneg (p :: l) <-> nonneg_quantity p = true /\ quantities_nonneg l.
Proof. unfold quantities_nonneg. simpl. apply andb_true_iff. Qed.

Lemma quantities_nonneg_filter (g : product -> bool) l :
  quantities_nonneg l -> quantities_nonneg (List.filter g l).
Proof.
  induction l as [|x l IH]; simpl; [auto|].
  intros H. apply quantities_nonneg_cons in H as [Hx Hl].
  destruct (g x); [apply quantities_nonneg_cons|]; auto.
Qed.

Lemma nonneg_quantity_update t (updates p : product) :
  nonneg_quantity p = true ->
  (forall v, updates !! "quantity" = Some v -> exists q, Py.int v = Ok q /\ 0 <= q) ->
  nonneg_quantity (<["last_updated" := t]> (updates ∪ p)) = true.
Proof.
  intros Hp Hu. unfold nonneg_quantity, int_field, Py.getitem in *.
  rewrite lookup_insert_ne by discriminate. rewrite lookup_union.
  destruct (updates !! "quantity") as [v|] eqn:Hv.
  - destruct (Hu v eq_refl) as (q & Hq & Hpos).
    destruct (p !! "quantity"); simpl; rewrite Hq; apply bool_decide_true, Hpos.
  - destruct (p !! "quantity"); [exact Hp | discriminate].
Qed.

Lemma update_product_nonneg e id updates m r :
  quantities_nonneg (inventory m) ->
  (forall v, updates !! "quantity" = Some v -> exists q, Py.int v = Ok q /\ 0 <= q) ->
  update_product e id updates m = Ok r ->
  quantities_nonneg (inventory r.1).
Proof.
  intros Hm Hu H.
  destruct (update_product_inv _ _ _ _ _ H)
    as [->|(l1 & p & l2 & Hinv & _ & _ & _ & ->)]; [exact Hm|].
  rewrite save_inventory_inventory. simpl. rewrite Hinv in Hm.
  apply quantities_nonneg_app in Hm as [H1 H2].
  apply quantities_nonneg_cons in H2 as [Hp H2].
  apply quantities_nonneg_app. split; [exact H1|].
  apply quantities_nonneg_cons. split; [|exact H2].
  apply nonneg_quantity_update; assumption.
Qed.

Lemma update_quantity_nonneg e id delta m r :
  quantities_nonneg (inventory m) ->
  update_quantity e id delta m = Ok r ->
  quantities_nonneg (inventory r.1).
Proof.
  intros Hm H. unfold update_quantity in H. inv_bind H.
  destruct a as [p|]; [|injection H as <-; exact Hm].
  destruct (Py.truthy p); [|injection H as <-; exact Hm].
  inv_bind H. rename a into cur.
  destruct (Z.ltb_spec (cur + delta) 0) as [Hneg|Hpos]; [injection H as <-; exact Hm|].
  inv_bind H. injection H as <-. simpl.
  eapply update_product_nonneg; [exact Hm | | exact Ha1].
  intros v Hv. apply lookup_singleton_Some in Hv as [_ <-].
  exists (cur + delta). split; [apply int_str | exact Hpos].
Qed.

Lemma delete_product_nonneg e id m r :
  quantities_nonneg (inventory m) ->
  delete_product e id m = Ok r ->
  quantities_nonneg (inventory r.1).
Proof.
  intros Hm H. unfold delete_product in H. inv_bind H.
  destruct (filterM_inv _ _ _ Ha) as (g & _ & ->).
  destruct (_ <? _)%nat; injection H as <-; simpl;
    rewrite ?save_inventory_inventory; simpl;
    apply quantities_nonneg_filter, Hm.
Qed.

(** *** Persistence *)

Lemma written_row_id (p : product) : Csv.written_row (dom p) p = p.
Proof.
  apply map_eq. intros k. unfold Csv.written_row.
  rewrite map_lookup_imap, lookup_gset_to_gmap.
  destruct (decide (k ∈ dom p)) as [Hin|Hout].
  - rewrite option_guard_True by exact Hin. simpl.
    apply elem_of_dom in Hin as [v Hv]. rewrite Hv. reflexivity.
  - rewrite option_guard_False by exact Hout. simpl.
    apply not_elem_of_dom in Hout. rewrite Hout. reflexivity.
Qed.

Lemma writerows_id fields rows :
  Forall (fun r : product => dom r = fields) rows ->
  Csv.writerows fields rows = rows.
Proof.
  induction 1 as [|r rows Hr _ IH]; simpl; [reflexivity|].
  unfold Csv.dict_to_list. rewrite bool_decide_true by (rewrite Hr; reflexivity).
  rewrite IH, <- Hr, written_row_id. reflexivity.
Qed.

Lemma save_inventory_persists e m :
  fs_ok e = true -> inventory m <> [] -> same_fields (inventory m) ->
  data_file (save_inventory e m) = Some (inventory m).
Proof.
  intros He Hne [fields Hf]. unfold save_inventory.
  destruct (inventory m) as [|first rest] eqn:E; [contradiction|].
  rewrite He. cbn [data_file]. f_equal. apply writerows_id.
  assert (Hfirst : dom first = fields) by (inversion Hf; assumption).
  rewrite Hfirst. exact Hf.
Qed.

Lemma save_inventory_empty e m :
  inventory m = [] -> save_inventory e m = m.
Proof. intros H. unfold save_inventory. rewrite H. reflexivity. Qed.

Lemma update_quantity_saved e id delta m m' :
  update_quantity e id delta m = Ok (m', true) ->
  exists inv', inv' <> [] /\ m' = save_inventory e (set_inventory inv' m).
Proof.
  intros H. pose proof H as H0. unfold update_quantity in H. inv_bind H.
  destruct a as [p|]; [|discriminate].
  destruct (Py.truthy p); [|discriminate].
  inv_bind H. rename a into cur.
  destruct (Z.ltb_spec (cur + delta) 0) as [Hneg|Hpos]; [discriminate|].
  destruct (get_product_Some _ _ _ Ha) as (l1 & l2 & Hinv & Hl1 & Hp).
  rewrite (update_quantity_accept e id delta m l1 p l2 cur) in H0 by assumption.
  injection H0 as <-. eexists. split; [|reflexivity]. destruct l1; discriminate.
Qed.

(** *** Binary64: where [reorder * 0.25] is exact *)

Lemma digits2_pos_size m : digits2_pos m = Pos.size m.
Proof. induction m; simpl; congruence. Qed.

Lemma digits2_pos_bound m : Zpos m < 2 ^ 53 -> Zpos (digits2_pos m) <= 53.
Proof.
  intros H. rewrite digits2_pos_size.
  pose proof (Pos.size_le m) as Hle.
  apply Pos2Z.pos_le_pos in Hle. rewrite Pos2Z.inj_pow in Hle.
  rewrite Pos2Z.inj_xO in Hle.
  assert (Hlt : 2 ^ Zpos (Pos.size m) < 2 ^ 54).
  { eapply Z.le_lt_trans; [exact Hle|]. change (2 ^ 54) with (2 * 2 ^ 53). lia. }
  apply Z.pow_lt_mono_r_iff in Hlt; lia.
Qed.

Lemma digits2_pos_shift m k :
  digits2_pos (Pos.iter xO m k) = (digits2_pos m + k)%positive.
Proof.
  induction k as [|k IH] using Pos.peano_ind.
  - simpl. lia.
  - rewrite Pos.iter_succ. simpl. rewrite IH. lia.
Qed.

(** A mantissa of 53 bits with an exponent in range is its own rounding. *)
Lemma binary_round_aux_exact s mz ez :
  digits2_pos mz = 53%positive -> -1074 <= ez <= 971 ->
  binary_round_aux 53 1024 s (Zpos mz) ez loc_Exact = S754_finite s mz ez.
Proof.
  intros Hd He. unfold binary_round_aux, shr_fexp, fexp, emin.
  cbn [Zdigits2 shr_record_of_loc]. rewrite Hd.
  replace (Z.max (53 + ez - 53) (3 - 1024 - 53) - ez) with 0 by lia.
  cbn [shr shr_m loc_of_shr_record round_nearest_even Zdigits2]. rewrite Hd.
  replace (Z.max (53 + ez - 53) (3 - 1024 - 53) - ez) with 0 by lia.
  cbn [shr shr_m]. destruct (Z.leb_spec ez (1024 - 53)); [reflexivity | lia].
Qed.

Lemma float_of_Z_exact r :
  0 < r < 2 ^ 53 ->
  exists mz ez, Py.float_of_Z r = S754_finite false mz ez /\
                digits2_pos mz = 53%positive /\ -52 <= ez <= 0 /\
                Zpos mz = r * 2 ^ (- ez).
Proof.
  intros [Hpos Hlt]. destruct r as [|m|m]; try lia.
  pose proof (digits2_pos_bound m Hlt) as Hd.
  unfold Py.float_of_Z, binary_normalize, binary_round, shl_align, fexp, emin,
    Py.prec, Py.emax.
  replace (Z.max (Zpos (digits2_pos m) + 0 - 53) (3 - 1024 - 53) - 0)
    with (Zpos (digits2_pos m) - 53) by lia.
  replace (Z.max (Zpos (digits2_pos m) + 0 - 53) (3 - 1024 - 53))
    with (Zpos (digits2_pos m) - 53) by lia.
  destruct (Zpos (digits2_pos m) - 53) as [|k|k] eqn:Hk; try lia.
  - exists m, 0. rewrite (binary_round_aux_exact false m 0) by lia.
    repeat split; lia.
  - exists (Pos.iter xO m k), (Zneg k).
    assert (Hdk : digits2_pos (Pos.iter xO m k) = 53%positive)
      by (rewrite digits2_pos_shift; lia).
    rewrite (binary_round_aux_exact false _ _ Hdk) by lia.
    split; [reflexivity|]. split; [exact Hdk|]. split; [lia|].
    change (Pos.iter xO m k) with (shift_pos k m). rewrite shift_pos_correct.
    change (- Z.neg k) with (Z.pos k). change (2 ^ Z.pos k) with (Z.pow_pos 2 k).
    apply Z.mul_comm.
Qed.

Lemma shr_52_exact mz :
  SpecFloat.iter_pos shr_1 52
    {| shr_m := Zpos (Pos.iter xO mz 52); shr_r := false; shr_s := false |}
  = {| shr_m := Zpos mz; shr_r := false; shr_s := false |}.
Proof. reflexivity. Qed.

Lemma fmul_quarter_exact mz ez :
  digits2_pos mz = 53%positive -> -52 <= ez <= 0 ->
  Py.fmul (S754_finite false mz ez) Py.quarter = S754_finite false mz (ez - 2).
Proof.
  intros Hd He. unfold Py.fmul, Py.quarter, SFmul, Py.prec, Py.emax.
  rewrite Pos.mul_comm.
  change (4503599627370496 * mz)%positive with (Pos.iter xO mz 52).
  cbn [xorb]. unfold binary_round_aux, shr_fexp, fexp, emin.
  cbn [Zdigits2 shr_record_of_loc]. rewrite digits2_pos_shift, Hd.
  match goal with |- context [Z.max ?a ?b - ?c] =>
    replace (Z.max a b - c) with 52 by lia end.
  cbn [shr]. rewrite shr_52_exact.
  cbn [shr_m loc_of_shr_record round_nearest_even Zdigits2].
  rewrite Hd.
  match goal with |- context [Z.max ?a ?b - ?c] =>
    replace (Z.max a b - c) with 0 by lia end.
  cbn [shr shr_m].
  replace (ez + -54 + 52) with (ez - 2) by lia.
  destruct (Z.leb_spec (ez - 2) (1024 - 53)); [reflexivity | lia].
Qed.

Lemma int_le_quarter q r :
  0 <= r < 2 ^ 53 ->
  exists t, Py.int_mul_float r Py.quarter = Ok t /\
            Py.int_le_float q t = Z.leb (4 * q) r.
Proof.
  intros [H0 Hlt]. destruct (Z.eq_dec r 0) as [->|Hne].
  - exists (S754_zero false). split; [reflexivity|]. simpl.
    destruct (Z.leb_spec q 0), (Z.leb_spec (4 * q) 0); reflexivity || lia.
  - destruct (float_of_Z_exact r) as (mz & ez & Hf & Hd & He & Hv); [lia|].
    exists (S754_finite false mz (ez - 2)). split.
    + unfold Py.int_mul_float, Py.float_of_int. rewrite Hf.
      change (Ok (Py.fmul (S754_finite false mz ez) Py.quarter)
              = Ok (S754_finite false mz (ez - 2))).
      rewrite fmul_quarter_exact by assumption. reflexivity.
    + unfold Py.int_le_float. cbn [cond_Zopp].
      destruct (Z.leb_spec 0 (ez - 2)); [lia|].
      rewrite Hv. replace (- (ez - 2)) with (2 + - ez) by lia.
      rewrite Z.pow_add_r by lia. change (2 ^ 2) with 4.
      assert (Hp : 0 < 2 ^ (- ez)) by (apply Z.pow_pos_nonneg; lia).
      destruct (Z.leb_spec (q * (4 * 2 ^ (- ez))) (r * 2 ^ (- ez))),
               (Z.leb_spec (4 * q) r); reflexivity || nia.
Qed.

(** *** The stock levels *)

Lemma distribution_loop_buckets inv : forall b b',
  distribution_loop b inv = Ok b' ->
  forall lv, bucket lv b' = bucket lv b ++ List.filter (has_level lv) inv.
Proof.
  induction inv as [|p inv IH]; simpl; intros b b' H lv.
  - injection H as <-. rewrite app_nil_r. reflexivity.
  - inv_bind H. rename a into lvp. rewrite (IH _ _ H lv).
    unfold has_level at 2. rewrite Ha.
    destruct lvp, lv; simpl; rewrite <- ?app_assoc; reflexivity.
Qed.

Lemma distribution_loop_levels inv : forall b b',
  distribution_loop b inv = Ok b' ->
  Forall (fun p => is_ok (product_level p) = true) inv.
Proof.
  induction inv as [|p inv IH]; simpl; intros b b' H; [constructor|].
  inv_bind H. constructor; [rewrite Ha; reflexivity | eauto].
Qed.

Lemma distribution_loop_total inv : forall b,
  Forall (fun p => is_ok (product_level p) = true) inv ->
  exists b', distribution_loop b inv = Ok b'.
Proof.
  induction inv as [|p inv IH]; simpl; intros b H; [eauto|].
  inversion H as [|? ? Hp Hinv]; subst.
  destruct (product_level p) as [lv|]; [|discriminate]. simpl. apply IH, Hinv.
Qed.

Lemma levels_permutation inv :
  Forall (fun p => is_ok (product_level p) = true) inv ->
  Permutation (List.filter (has_level Critical) inv ++
               List.filter (has_level Low) inv ++
               List.filter (has_level Normal) inv ++
               List.filter (has_level High) inv) inv.
Proof.
  induction 1 as [|p inv Hp _ IH]; simpl; [constructor|].
  destruct (product_level p) as [lvp|] eqn:E; [|discriminate].
  assert (Hl : forall lv, has_level lv p = bool_decide (lvp = lv))
    by (intros lv; unfold has_level; rewrite E; reflexivity).
  rewrite !Hl. destruct lvp; simpl.
  - apply perm_skip, IH.
  - symmetry. etransitivity; [apply perm_skip; symmetry; exact IH|].
    apply Permutation_middle.
  - symmetry. etransitivity; [apply perm_skip; symmetry; exact IH|].
    rewrite !(app_assoc (List.filter (has_level Critical) inv)).
    apply Permutation_middle.
  - symmetry. etransitivity; [apply perm_skip; symmetry; exact IH|].
    rewrite !app_assoc. apply Permutation_middle.
Qed.

Lemma has_level_unique lv1 lv2 p :
  has_level lv1 p = true -> has_level lv2 p = true -> lv1 = lv2.
Proof.
  unfold has_level. destruct (product_level p) as [lv|]; [|discriminate].
  intros H1 H2. apply bool_decide_eq_true in H1, H2. congruence.
Qed.

(** Whatever the records, the buckets of a distribution that is computed
    split the store: each bucket is the sub-sequence of the store of the
    records of its level. *)
Lemma stock_distribution_buckets inv b :
  show_stock_distribution inv = Ok b ->
  (forall lv, bucket lv b = List.filter (has_level lv) inv) /\
  Permutation (critical b ++ low b ++ normal b ++ high b) inv /\
  (forall lv1 lv2 p, In p (bucket lv1 b) -> In p (bucket lv2 b) -> lv1 = lv2).
Proof.
  intros H. unfold show_stock_distribution in H.
  pose proof (distribution_loop_buckets _ _ _ H) as Hb.
  pose proof (distribution_loop_levels _ _ _ H) as Hl.
  assert (Hf : forall lv, bucket lv b = List.filter (has_level lv) inv).
  { intros lv. rewrite Hb. destruct lv; reflexivity. }
  split; [exact Hf|]. split.
  - change (Permutation (bucket Critical b ++ bucket Low b ++ bucket Normal b
                         ++ bucket High b) inv).
    rewrite !Hf. apply levels_permutation, Hl.
  - intros lv1 lv2 p. rewrite !Hf, !List.filter_In.
    intros [_ H1] [_ H2]. exact (has_level_unique _ _ _ H1 H2).
Qed.

Lemma stock_level_spec q r :
  0 <= r < 2 ^ 53 ->
  exists lv, stock_level q r = Ok lv /\ forall lv', in_bucket lv' q r <-> lv' = lv.
Proof.
  intros Hr. unfold stock_level.
  destruct (int_le_quarter q r Hr) as (t & -> & Ht).
  cbn [mbind result_bind]. rewrite Ht.
  destruct (Z.eqb_spec q 0) as [->|Hq].
  { exists Critical. split; [reflexivity|].
    intros []; simpl; split; intros; try discriminate; try lia; auto. }
  destruct (Z.leb_spec (4 * q) r).
  { exists Critical. split; [reflexivity|].
    intros []; simpl; split; intros; try discriminate; try lia; auto. }
  destruct (Z.leb_spec q r).
  { exists Low. split; [reflexivity|].
    intros []; simpl; split; intros; try discriminate; try lia; auto. }
  destruct (Z.leb_spec q (r * 2)).
  { exists Normal. split; [reflexivity|].
    intros []; simpl; split; intros; try discriminate; try lia; auto. }
  exists High. split; [reflexivity|].
  intros []; simpl; split; intros; try discriminate; try lia; auto.
Qed.

Lemma has_level_spec lv p q r :
  int_field p "quantity" = Ok q -> int_field p "reorder_level" = Ok r ->
  0 <= r < 2 ^ 53 ->
  has_level lv p = true <-> in_bucket lv q r.
Proof.
  intros Hq Hr Hrange. unfold has_level, product_level. rewrite Hq, Hr.
  cbn [mbind result_bind].
  destruct (stock_level_spec q r Hrange) as (lv0 & -> & Hlv).
  rewrite Hlv, bool_decide_eq_true. split; congruence.
Qed.

(** *** Category totals *)

Lemma odict_get_set {V} k k' (v : V) d :
  Py.odict_get k' (Py.odict_set k v d) =
    if decide (k = k') then Some v else Py.odict_get k' d.
Proof.
  induction d as [|[k0 v0] d IH]; simpl.
  - destruct (decide (k = k')); reflexivity.
  - destruct (decide (k0 = k)) as [->|Hne]; simpl.
    + destruct (decide (k = k')); reflexivity.
    + destruct (decide (k0 = k')) as [->|Hne'].
      * destruct (decide (k = k')); [congruence | reflexivity].
      * exact IH.
Qed.

Lemma odict_set_keys {V} k (v : V) d :
  map fst (Py.odict_set k v d) =
    if bool_decide (k ∈ map fst d) then map fst d else map fst d ++ [k].
Proof.
  induction d as [|[k0 v0] d IH]; simpl; [reflexivity|].
  destruct (decide (k0 = k)) as [->|Hne]; simpl.
  - rewrite bool_decide_true by (left). reflexivity.
  - rewrite IH. destruct (bool_decide (k ∈ map fst d)) eqn:E.
    + apply bool_decide_eq_true in E.
      rewrite bool_decide_true by (right; exact E). reflexivity.
    + apply bool_decide_eq_false in E.
      rewrite bool_decide_false; [reflexivity|].
      intros H. apply elem_of_cons in H as [->|H]; contradiction.
Qed.

Lemma odict_get_None {V} k (d : list (string * V)) :
  Py.odict_get k d = None <-> k ∉ map fst d.
Proof.
  induction d as [|[k0 v0] d IH]; simpl.
  - split; [intros _ H; inversion H | reflexivity].
  - destruct (decide (k0 = k)) as [->|Hne].
    + split; [discriminate | intros H; exfalso; apply H; left].
    + rewrite IH. split.
      * intros H H'. apply elem_of_cons in H' as [->|H']; contradiction.
      * intros H H'. apply H. right. exact H'.
Qed.

(** The loop of [get_category_summary], category by category: the total of
    a category is the running sum of [get_total_inventory_value] over the
    records of the category, from the total the category had before. *)
Lemma summary_loop_category c inv : forall summary summary',
  summary_loop summary inv = Ok summary' ->
  match Py.odict_get c summary' with
  | Some st' =>
      total_loop (total_value (default empty_stats (Py.odict_get c summary)))
                 (List.filter (has_category c) inv) = Ok (total_value st')
  | None =>
      Py.odict_get c summary = None /\ List.filter (has_category c) inv = []
  end.
Proof.
  induction inv as [|p inv IH]; intros summary summary' H.
  - injection H as <-. simpl. destruct (Py.odict_get c summary); auto.
  - cbn [summary_loop] in H.
    inv_bind H. rename a into cp. inv_bind H. rename a into q.
    inv_bind H. rename a into v.
    specialize (IH _ _ H). rewrite odict_get_set in IH.
    unfold Py.getitem in Ha.
    destruct (p !! "category") as [cp'|] eqn:Hc; [|discriminate].
    injection Ha as ->.
    assert (Hf : List.filter (has_category c) (p :: inv) =
                 if decide (cp = c) then p :: List.filter (has_category c) inv
                 else List.filter (has_category c) inv).
    { simpl. unfold has_category at 1. rewrite Hc.
      destruct (decide (cp = c));
        [rewrite bool_decide_true by congruence
        | rewrite bool_decide_false by congruence]; reflexivity. }
    rewrite Hf. destruct (decide (cp = c)) as [->|Hne]; [|exact IH].
    cbn [total_loop]. rewrite Ha1. cbn [mbind result_bind default] in IH |- *.
    destruct (Py.odict_get c summary'); [exact IH | destruct IH; discriminate].
Qed.

Lemma summary_loop_keys inv : forall summary summary',
  summary_loop summary inv = Ok summary' ->
  NoDup (map fst summary) ->
  NoDup (map fst summary') /\
  forall c, c ∈ map fst summary' <->
            c ∈ map fst summary \/ exists p, p ∈ inv /\ p !! "category" = Some c.
Proof.
  induction inv as [|p inv IH]; simpl; intros summary summary' H Hnd.
  - injection H as <-. split; [exact Hnd|]. intros c. split; [auto|].
    intros [H|(p & Hp & _)]; [exact H | inversion Hp].
  - inv_bind H. rename a into cp. inv_bind H. rename a into q.
    inv_bind H. rename a into v.
    unfold Py.getitem in Ha. destruct (p !! "category") as [cp'|] eqn:Hc; [|discriminate].
    injection Ha as ->.
    match type of H with summary_loop (Py.odict_set cp ?st summary) inv = _ =>
      pose proof (odict_set_keys cp st summary) as Hk end.
    apply IH in H as [Hnd' Hin].
    + split; [exact Hnd'|]. intros c. rewrite Hin, Hk.
      destruct (bool_decide (cp ∈ map fst summary)) eqn:E.
      * apply bool_decide_eq_true in E. split.
        -- intros [H|(p' & Hp' & Hc')]; [auto|].
           right. exists p'. split; [right; exact Hp' | exact Hc'].
        -- intros [H|(p' & Hp' & Hc')]; [auto|].
           apply elem_of_cons in Hp' as [->|Hp'].
           ++ left. congruence.
           ++ right. eauto.
      * rewrite elem_of_app, list_elem_of_singleton. split.
        -- intros [[H| ->]|(p' & Hp' & Hc')]; [auto | |].
           ++ right. exists p. split; [left | exact Hc].
           ++ right. exists p'. split; [right; exact Hp' | exact Hc'].
        -- intros [H|(p' & Hp' & Hc')]; [auto|].
           apply elem_of_cons in Hp' as [->|Hp'].
           ++ left. right. congruence.
           ++ right. eauto.
    + rewrite Hk. destruct (bool_decide (cp ∈ map fst summary)) eqn:E; [exact Hnd|].
      apply bool_decide_eq_false in E. apply NoDup_app.
      split; [exact Hnd|]. split; [|apply NoDup_singleton].
      intros x Hx Hx'. apply list_elem_of_singleton in Hx' as ->. contradiction.
Qed.

Lemma summary_loop_total inv : forall summary summary' t0,
  summary_loop summary inv = Ok summary' ->
  exists t, total_loop t0 inv = Ok t.
Proof.
  induction inv as [|p inv IH]; simpl; intros summary summary' t0 H; [eauto|].
  inv_bind H. inv_bind H. inv_bind H. rewrite Ha1. simpl. eauto.
Qed.

(** *** The order of floats *)

Lemma SFcompare_refl x : x <> S754_nan -> SFcompare x x = Some Eq.
Proof.
  destruct x as [s|s| |s m e]; intros H; simpl; try congruence.
  - destruct s; reflexivity.
  - rewrite Z.compare_refl, Pos.compare_cont_refl. destruct s; reflexivity.
Qed.

Lemma feq_fadd_zero t :
  t <> S754_nan -> Py.feq (Py.fadd (S754_zero false) t) t = true.
Proof.
  intros H. unfold Py.feq, SFeqb.
  destruct t as [[]|s| |s m e]; try congruence; try reflexivity.
  - simpl. destruct s; reflexivity.
  - change (Py.fadd (S754_zero false) (S754_finite s m e)) with (S754_finite s m e).
    rewrite SFcompare_refl by discriminate. reflexivity.
Qed.

Lemma SFcompare_antisym x y :
  SFcompare y x = option_map CompOpp (SFcompare x y).
Proof.
  destruct x as [s1|s1| |s1 m1 e1], y as [s2|s2| |s2 m2 e2]; simpl;
    try reflexivity; try (destruct s1; reflexivity);
    try (destruct s2; reflexivity); try (destruct s1, s2; reflexivity).
  change (Pos.compare_cont Eq m2 m1) with (Pos.compare m2 m1).
  change (Pos.compare_cont Eq m1 m2) with (Pos.compare m1 m2).
  rewrite (Z.compare_antisym e1 e2), (Pos.compare_antisym m1 m2).
  destruct s1, s2; try reflexivity;
    destruct (e1 ?= e2); simpl; try reflexivity;
    destruct (m1 ?= m2)%positive; reflexivity.
Qed.






(** *** The stable sort *)

Section Sort.

Context {A : Type} (key : A -> Py.float).

Lemma insert_desc_perm x l : Permutation (Py.insert_desc key x l) (x :: l).
Proof.
  induction l as [|y l IH]; simpl; [reflexivity|].
  destruct (Py.flt (key x) (key y)); [|reflexivity].
  rewrite IH. apply perm_swap.
Qed.

Lemma sort_desc_perm l : Permutation (Py.sort_desc key l) l.
Proof.
  induction l as [|x l IH]; simpl; [reflexivity|].
  rewrite insert_desc_perm, IH. reflexivity.
Qed.






End Sort.





Lemma feq_sym x y : Py.feq x y = Py.feq y x.
Proof.
  unfold Py.feq, SFeqb. rewrite (SFcompare_antisym y x).
  destruct (SFcompare y x) as [[]|]; reflexivity.
Qed.

Section Unique.

Context {A : Type} (key : A -> Py.float).




End Unique.



(** *** The ranking by value *)



(** *** Lemmas for the further properties *)

Lemma set_inventory_same m : set_inventory (inventory m) m = m.
Proof. destruct m; reflexivity. Qed.

Lemma filterM_all_ok {A} (f : A -> result bool) (l r : list A) :
  filterM f l = Ok r -> Forall (fun x => is_ok (f x) = true) l.
Proof.
  intros H. destruct (filterM_inv _ _ _ H) as (g & Hg & _).
  eapply Forall_impl; [exact Hg|]. intros x Hx. simpl in Hx. rewrite Hx. reflexivity.
Qed.

Lemma delete_all_have_id e id m r :
  delete_product e id m = Ok r ->
  Forall (fun p : product => is_Some (p !! "product_id")) (inventory m).
Proof.
  unfold delete_product. intros H. inv_bind H.
  apply filterM_all_ok in Ha. eapply Forall_impl; [exact Ha|].
  intros p Hp. simpl in Hp. unfold Py.getitem in Hp.
  destruct (p !! "product_id"); [eauto | discriminate].
Qed.

Lemma filter_keeps_full_length id l :
  length (List.filter (keeps id) l) = length l -> List.filter (keeps id) l = l.
Proof.
  induction l as [|x l IH]; simpl; [reflexivity|].
  destruct (keeps id x); simpl; intros H.
  - f_equal. apply IH. lia.
  - pose proof (filter_keeps_length id l). lia.
Qed.

(** What [delete_product] returns, from the records it keeps. *)
Lemma delete_product_cases e id m r :
  delete_product e id m = Ok r ->
  (r = (save_inventory e (set_inventory (List.filter (keeps id) (inventory m)) m), true)
   /\ (length (List.filter (keeps id) (inventory m)) < length (inventory m))%nat)
  \/ (r = (m, false) /\ List.filter (keeps id) (inventory m) = inventory m).
Proof.
  intros H. pose proof (delete_all_have_id _ _ _ _ H) as Hid.
  unfold delete_product in H. rewrite (delete_filter id _ Hid) in H.
  cbn [mbind result_bind] in H. cbn [inventory set_inventory] in H.
  destruct (Nat.ltb_spec (length (List.filter (keeps id) (inventory m)))
                         (length (inventory m))) as [Hlt|Hge].
  - left. injection H as <-. auto.
  - right. pose proof (filter_keeps_length id (inventory m)) as Hle.
    assert (E : List.filter (keeps id) (inventory m) = inventory m)
      by (apply filter_keeps_full_length; lia).
    rewrite E, set_inventory_same in H. injection H as <-. auto.
Qed.

Lemma keeps_other id (p : product) : keeps id p = true -> is_Some (p !! "product_id") -> other_id id p.
Proof.
  unfold keeps. intros H [i Hi]. exists i. split; [exact Hi|].
  apply negb_true_iff, bool_decide_eq_false in H. congruence.
Qed.

Lemma filter_keeps_others id l :
  Forall (fun p : product => is_Some (p !! "product_id")) l ->
  Forall (other_id id) (List.filter (keeps id) l).
Proof.
  induction 1 as [|x l Hx _ IH]; simpl; [constructor|].
  destruct (keeps id x) eqn:E; [|exact IH].
  constructor; [apply keeps_other; assumption | exact IH].
Qed.

Lemma get_product_filter_other id id' l :
  id' <> id ->
  Forall (fun p : product => is_Some (p !! "product_id")) l ->
  get_product id' (List.filter (keeps id) l) = get_product id' l.
Proof.
  intros Hne. induction 1 as [|x l [i Hi] _ IH]; [reflexivity|].
  cbn [List.filter]. unfold keeps at 1. rewrite Hi.
  destruct (decide (i = id)) as [->|Hi'].
  - rewrite bool_decide_true by reflexivity. cbn [negb].
    rewrite IH. cbn [get_product]. unfold Py.getitem. rewrite Hi.
    cbn [mbind result_bind]. destruct (decide (id = id')); [congruence | reflexivity].
  - rewrite bool_decide_false by congruence. cbn [negb get_product].
    rewrite IH. reflexivity.
Qed.

Lemma update_loop_unknown e id updates inv :
  Forall (other_id id) inv -> update_loop e id updates inv = Ok None.
Proof.
  induction 1 as [|x l (i & Hi & Hne) _ IH]; simpl; [reflexivity|].
  unfold Py.getitem. rewrite Hi. simpl.
  destruct (decide (i = id)); [contradiction|]. rewrite IH. reflexivity.
Qed.

Lemma delete_unknown e id m :
  Forall (other_id id) (inventory m) -> delete_product e id m = Ok (m, false).
Proof.
  intros H. unfold delete_product. rewrite delete_filter
    by (eapply Forall_impl; [exact H | apply other_id_is_Some]).
  cbn [mbind result_bind]. rewrite (filter_keeps_other id _ H).
  cbn [inventory set_inventory]. rewrite Nat.ltb_irrefl, set_inventory_same.
  reflexivity.
Qed.

Lemma product_ids_app l1 l2 : product_ids (l1 ++ l2) = product_ids l1 ++ product_ids l2.
Proof. unfold product_ids. apply omap_app. Qed.

Lemma product_ids_cons (p : product) l :
  product_ids (p :: l) = match p !! "product_id" with
                         | Some i => i :: product_ids l
                         | None => product_ids l
                         end.
Proof. reflexivity. Qed.

Lemma update_quantity_accepted e id delta m m' :
  update_quantity e id delta m = Ok (m', true) ->
  exists l1 p l2 cur,
    inventory m = l1 ++ p :: l2 /\ Forall (other_id id) l1 /\
    p !! "product_id" = Some id /\ int_field p "quantity" = Ok cur /\
    0 <= cur + delta /\
    m' = save_inventory e
           (set_inventory
              (l1 ++ <["last_updated" := today e]>
                       (<["quantity" := Py.str (cur + delta)]> p) :: l2) m).
Proof.
  intros H. pose proof H as H0. unfold update_quantity in H. inv_bind H.
  destruct a as [p|]; [|discriminate].
  destruct (Py.truthy p); [|discriminate].
  inv_bind H. rename a into cur.
  destruct (Z.ltb_spec (cur + delta) 0) as [Hneg|Hpos]; [discriminate|].
  destruct (get_product_Some _ _ _ Ha) as (l1 & l2 & Hinv & Hl1 & Hp).
  rewrite (update_quantity_accept e id delta m l1 p l2 cur) in H0 by assumption.
  injection H0 as <-. exists l1, p, l2, cur. auto 10.
Qed.

Lemma save_inventory_set e inv inv' m :
  save_inventory e (set_inventory inv (save_inventory e (set_inventory inv' m)))
  = save_inventory e (set_inventory inv m) \/ inv = [].
Proof.
  destruct inv as [|x inv]; [right; reflexivity|]. left.
  unfold save_inventory. cbn [inventory set_inventory data_file].
  destruct inv' as [|y inv']; cbn [inventory set_inventory data_file];
    destruct (fs_ok e); reflexivity.
Qed.

Lemma writerows_until fields l1 r l2 :
  Forall (fun p : product => dom p ⊆ fields) l1 -> ~ dom r ⊆ fields ->
  Csv.writerows fields (l1 ++ r :: l2) = map (Csv.written_row fields) l1.
Proof.
  intros Hl1 Hr. induction Hl1 as [|x l1 Hx _ IH]; simpl.
  - unfold Csv.dict_to_list. rewrite bool_decide_false by exact Hr. reflexivity.
  - unfold Csv.dict_to_list at 1. rewrite bool_decide_true by exact Hx.
    rewrite IH. reflexivity.
Qed.

Lemma filterM_raise {A} (f : A -> result bool) l1 x l2 e :
  Forall (fun a => is_ok (f a) = true) l1 -> f x = Raise e ->
  filterM f (l1 ++ x :: l2) = Raise e.
Proof.
  intros Hl1 Hx. induction Hl1 as [|a l1 Ha _ IH]; simpl.
  - rewrite Hx. reflexivity.
  - destruct (f a); [|discriminate]. simpl. rewrite IH. reflexivity.
Qed.

Lemma filter_split_perm {A} (f g h : A -> bool) (l : list A) :
  Forall (fun a => f a = g a || h a) l ->
  Forall (fun a => g a && h a = false) l ->
  Permutation (List.filter f l) (List.filter g l ++ List.filter h l).
Proof.
  intros Hf Hx. induction l as [|a l IH]; [reflexivity|].
  inversion Hf as [|? ? Ha Hf']; inversion Hx as [|? ? Hb Hx']; subst.
  specialize (IH Hf' Hx'). cbn [List.filter]. rewrite Ha.
  destruct (g a), (h a); try discriminate; cbn [orb app].
  - apply perm_skip, IH.
  - rewrite IH. apply Permutation_middle.
  - exact IH.
Qed.

Lemma at_or_below_levels (p : product) :
  stock_in_range p ->
  at_or_below_reorder p = has_level Critical p || has_level Low p.
Proof.
  intros (q & r & Hq & Hr & Hrange).
  pose proof (has_level_spec Critical p q r Hq Hr Hrange) as Hc.
  pose proof (has_level_spec Low p q r Hq Hr Hrange) as Hl.
  unfold at_or_below_reorder. rewrite Hq, Hr. simpl in Hc, Hl.
  destruct (has_level Critical p), (has_level Low p); simpl;
    first [apply bool_decide_eq_true | apply bool_decide_eq_false];
    try (pose proof (proj1 Hc eq_refl)); try (pose proof (proj1 Hl eq_refl));
    try lia.
Qed.

Lemma sum_int_from (l : list Z) (z : Z) : fold_left Z.add l z = z + Py.sum_int l.
Proof.
  unfold Py.sum_int. revert z. induction l as [|x l IH]; intros z; simpl; [lia|].
  rewrite (IH (z + x)), (IH (0 + x)). lia.
Qed.

Lemma sum_int_cons x l : Py.sum_int (x :: l) = x + Py.sum_int l.
Proof. unfold Py.sum_int at 1. simpl. apply sum_int_from. Qed.

Lemma sum_int_app l1 l2 : Py.sum_int (l1 ++ l2) = Py.sum_int l1 + Py.sum_int l2.
Proof.
  induction l1 as [|x l1 IH]; [reflexivity|].
  simpl. rewrite !sum_int_cons, IH. lia.
Qed.

Lemma total_quantity_row_cons p inv q :
  int_field p "quantity" = Ok q ->
  total_quantity_row (p :: inv) = (t ← total_quantity_row inv; Ok (q + t)).
Proof.
  intros Hq. unfold total_quantity_row. simpl. rewrite Hq. simpl.
  destruct (mapM _ inv); simpl; [rewrite sum_int_cons|]; reflexivity.
Qed.

(** The sum of a measure of the entries after one assignment. *)
Lemma odict_set_sum {V} (g : V -> Z) k (v : V) d :
  Py.sum_int (map (fun kv => g kv.2) (Py.odict_set k v d))
  = Py.sum_int (map (fun kv => g kv.2) d)
    - from_option g 0 (Py.odict_get k d) + g v.
Proof.
  induction d as [|[k0 v0] d IH]; simpl.
  - rewrite sum_int_cons. unfold Py.sum_int. simpl. lia.
  - destruct (decide (k0 = k)) as [->|Hne]; simpl.
    + rewrite !sum_int_cons. simpl. lia.
    + rewrite !sum_int_cons, IH. simpl. lia.
Qed.

Lemma summary_loop_sums inv : forall summary summary',
  summary_loop summary inv = Ok summary' ->
  Py.sum_int (map (fun kv => count kv.2) summary')
  = Py.sum_int (map (fun kv => count kv.2) summary) + Z.of_nat (length inv) /\
  exists t, total_quantity_row inv = Ok t /\
    Py.sum_int (map (fun kv => total_quantity kv.2) summary')
    = Py.sum_int (map (fun kv => total_quantity kv.2) summary) + t.
Proof.
  induction inv as [|p inv IH]; intros summary summary' H.
  - injection H as <-. split; [simpl; lia|]. exists 0. split; [reflexivity | lia].
  - cbn [summary_loop] in H.
    inv_bind H. rename a into cp. inv_bind H. rename a into q.
    inv_bind H. rename a into v.
    destruct (IH _ _ H) as (Hc & t & Ht & Hq).
    rewrite (odict_set_sum count) in Hc.
    rewrite (odict_set_sum total_quantity) in Hq.
    cbn [count total_quantity] in Hc, Hq.
    destruct (Py.odict_get cp summary) as [st|]; cbn [from_option default id] in Hc, Hq.
    + split; [rewrite Hc; cbn [length]; lia|].
      exists (q + t). rewrite (total_quantity_row_cons p inv q Ha0), Ht.
      split; [reflexivity | lia].
    + cbn [empty_stats count total_quantity] in Hc, Hq.
      split; [rewrite Hc; cbn [length]; lia|].
      exists (q + t). rewrite (total_quantity_row_cons p inv q Ha0), Ht.
      split; [reflexivity | lia].
Qed.

Lemma summary_loop_category_counts c inv : forall summary summary',
  summary_loop summary inv = Ok summary' ->
  match Py.odict_get c summary' with
  | Some st' =>
      let st := default empty_stats (Py.odict_get c summary) in
      count st' = count st
                  + Z.of_nat (length (List.filter (has_category c) inv)) /\
      exists t, total_quantity_row (List.filter (has_category c) inv) = Ok t /\
                total_quantity st' = total_quantity st + t
  | None => True
  end.
Proof.
  induction inv as [|p inv IH]; intros summary summary' H.
  - injection H as <-. simpl. destruct (Py.odict_get c summary); [|exact I].
    simpl. split; [lia|]. exists 0. split; [reflexivity | lia].
  - cbn [summary_loop] in H.
    inv_bind H. rename a into cp. inv_bind H. rename a into q.
    inv_bind H. rename a into v.
    specialize (IH _ _ H). rewrite odict_get_set in IH.
    unfold Py.getitem in Ha.
    destruct (p !! "category") as [cp'|] eqn:Hc; [|discriminate].
    injection Ha as ->.
    assert (Hf : List.filter (has_category c) (p :: inv) =
                 if decide (cp = c) then p :: List.filter (has_category c) inv
                 else List.filter (has_category c) inv).
    { simpl. unfold has_category at 1. rewrite Hc.
      destruct (decide (cp = c));
        [rewrite bool_decide_true by congruence
        | rewrite bool_decide_false by congruence]; reflexivity. }
    rewrite Hf. destruct (decide (cp = c)) as [->|Hne]; [|exact IH].
    destruct (Py.odict_get c summary'); [|exact I].
    cbn [default count total_quantity id] in IH |- *.
    destruct IH as (Hcount & t & Ht & Hq).
    split; [cbn [length]; lia|].
    exists (q + t). rewrite (total_quantity_row_cons p _ q Ha0), Ht.
    split; [reflexivity | lia].
Qed.

Lemma prefix_refl s : String.prefix s s = true.
Proof.
  induction s as [|c s IH]; simpl; [reflexivity|].
  destruct (ascii_dec c c); [exact IH | contradiction].
Qed.

Lemma contains_refl s : Py.contains s s = true.
Proof.
  destruct s; [reflexivity|]. cbn [Py.contains]. rewrite prefix_refl. reflexivity.
Qed.

Lemma contains_empty s : Py.contains "" s = true.
Proof. destruct s; reflexivity. Qed.

Lemma filter_sublist {A} (g h : A -> bool) (l : list A) :
  (forall a, In a l -> g a = true -> h a = true) ->
  List.filter g l `sublist_of` List.filter h l.
Proof.
  induction l as [|a l IH]; intros H; simpl; [constructor|].
  assert (IH' : List.filter g l `sublist_of` List.filter h l)
    by (apply IH; intros b Hb; apply H; right; exact Hb).
  destruct (g a) eqn:Eg.
  - rewrite (H a (or_introl eq_refl) Eg). constructor. exact IH'.
  - destruct (h a); [constructor|]; exact IH'.
Qed.

Lemma odict_get_In {V} k (v : V) d :
  NoDup (map fst d) -> In (k, v) d -> Py.odict_get k d = Some v.
Proof.
  induction d as [|[k0 v0] d IH]; simpl; intros Hnd Hin; [contradiction|].
  apply NoDup_cons in Hnd as [Hk0 Hnd].
  destruct Hin as [E|Hin].
  - injection E as -> ->. destruct (decide (k = k)); [reflexivity | contradiction].
  - destruct (decide (k0 = k)) as [->|Hne]; [|apply IH; assumption].
    exfalso. apply Hk0. apply list_elem_of_In. apply (in_map fst _ _ Hin).
Qed.

Lemma odict_set_NoDup {V} k (v : V) d :
  NoDup (map fst d) -> NoDup (map fst (Py.odict_set k v d)).
Proof.
  intros Hnd. rewrite odict_set_keys.
  destruct (bool_decide (k ∈ map fst d)) eqn:E; [exact Hnd|].
  apply bool_decide_eq_false in E. apply NoDup_app.
  split; [exact Hnd|]. split; [|apply NoDup_singleton].
  intros x Hx Hx'. apply list_elem_of_singleton in Hx' as ->. contradiction.
Qed.

Lemma supplier_loop_NoDup inv : forall data data',
  supplier_loop data inv = Ok data' ->
  NoDup (map fst data) -> NoDup (map fst data').
Proof.
  induction inv as [|p inv IH]; intros data data' H Hnd.
  - injection H as <-. exact Hnd.
  - cbn [supplier_loop] in H. do 5 inv_bind H.
    eapply IH; [exact H|]. apply odict_set_NoDup, Hnd.
Qed.

Lemma get_low_stock_items_filter inv items :
  get_low_stock_items inv = Ok items ->
  items = List.filter at_or_below_reorder inv.
Proof.
  intros H. pose proof (filterM_all_ok _ _ _ H) as Hok.
  unfold get_low_stock_items in H.
  rewrite (filterM_pure _ at_or_below_reorder) in H; [congruence|].
  eapply Forall_impl; [exact Hok|]. intros p Hp. simpl in *.
  unfold at_or_below_reorder.
  destruct (int_field p "quantity") as [q|]; [|discriminate].
  destruct (int_field p "reorder_level") as [r|]; [|discriminate].
  simpl. f_equal. destruct (Z.leb_spec q r).
  - rewrite bool_decide_true by assumption. reflexivity.
  - rewrite bool_decide_false by lia. reflexivity.
Qed.

Lemma sum_int_perm l1 l2 : Permutation l1 l2 -> Py.sum_int l1 = Py.sum_int l2.
Proof.
  induction 1 as [|x l1 l2 _ IH|x y l|l1 l2 l3 _ IH1 _ IH2].
  - reflexivity.
  - rewrite !sum_int_cons, IH. reflexivity.
  - rewrite !sum_int_cons. lia.
  - congruence.
Qed.

Lemma filter_has_supplier_cons s sp (p : product) inv :
  p !! "supplier" = Some sp ->
  List.filter (has_supplier s) (p :: inv) =
    if decide (sp = s) then p :: List.filter (has_supplier s) inv
    else List.filter (has_supplier s) inv.
Proof.
  intros Hs. simpl. unfold has_supplier at 1. rewrite Hs.
  destruct (decide (sp = s));
    [rewrite bool_decide_true by congruence
    | rewrite bool_decide_false by congruence]; reflexivity.
Qed.

Lemma at_or_below_reorder_leb (p : product) q r :
  int_field p "quantity" = Ok q -> int_field p "reorder_level" = Ok r ->
  at_or_below_reorder p = (q <=? r).
Proof.
  intros Hq Hr. unfold at_or_below_reorder. rewrite Hq, Hr.
  destruct (Z.leb_spec q r);
    [rewrite bool_decide_true by assumption
    | rewrite bool_decide_false by lia]; reflexivity.
Qed.

Lemma supplier_loop_counts s inv : forall data data',
  supplier_loop data inv = Ok data' ->
  match Py.odict_get s data' with
  | Some st' =>
      let st := default Supplier.new (Py.odict_get s data) in
      let mine := List.filter (has_supplier s) inv in
      Supplier.products st' = Supplier.products st + Z.of_nat (length mine) /\
      Supplier.low_stock_items st'
        = Supplier.low_stock_items st
          + Z.of_nat (length (List.filter at_or_below_reorder mine)) /\
      exists t, total_quantity_row mine = Ok t /\
                Supplier.total_quantity st' = Supplier.total_quantity st + t
  | None => True
  end.
Proof.
  induction inv as [|p inv IH]; intros data data' H.
  - injection H as <-. simpl. destruct (Py.odict_get s data); [|exact I].
    simpl. split; [lia|]. split; [lia|]. exists 0. split; [reflexivity | lia].
  - cbn [supplier_loop] in H.
    inv_bind H. rename a into sp. inv_bind H. rename a into q.
    inv_bind H. rename a into u. inv_bind H. rename a into v.
    inv_bind H. rename a into r.
    specialize (IH _ _ H). rewrite odict_get_set in IH.
    unfold Py.getitem in Ha.
    destruct (p !! "supplier") as [sp'|] eqn:Hs; [|discriminate].
    injection Ha as ->.
    rewrite (filter_has_supplier_cons s sp p inv Hs).
    destruct (decide (sp = s)) as [->|Hne]; [|exact IH].
    destruct (Py.odict_get s data'); [|exact I].
    cbn [default id Supplier.products Supplier.low_stock_items
         Supplier.total_quantity] in IH |- *.
    destruct IH as (Hp & Hl & t & Ht & Hq).
    split; [cbn [length]; lia|]. split.
    + cbn [List.filter]. rewrite (at_or_below_reorder_leb p q r Ha0 Ha3).
      destruct (q <=? r); cbn [length]; lia.
    + exists (q + t). rewrite (total_quantity_row_cons p _ q Ha0), Ht.
      split; [reflexivity | lia].
Qed.

Lemma supplier_loop_sums inv : forall data data',
  supplier_loop data inv = Ok data' ->
  Py.sum_int (map (fun kv => Supplier.products kv.2) data')
  = Py.sum_int (map (fun kv => Supplier.products kv.2) data)
    + Z.of_nat (length inv) /\
  exists items, get_low_stock_items inv = Ok items /\
    Py.sum_int (map (fun kv => Supplier.low_stock_items kv.2) data')
    = Py.sum_int (map (fun kv => Supplier.low_stock_items kv.2) data)
      + Z.of_nat (length items).
Proof.
  induction inv as [|p inv IH]; intros data data' H.
  - injection H as <-. split; [simpl; lia|].
    exists []. split; [reflexivity | simpl; lia].
  - cbn [supplier_loop] in H.
    inv_bind H. rename a into sp. inv_bind H. rename a into q.
    inv_bind H. rename a into u. inv_bind H. rename a into v.
    inv_bind H. rename a into r.
    destruct (IH _ _ H) as (Hp & items & Hi & Hl).
    rewrite (odict_set_sum Supplier.products) in Hp.
    rewrite (odict_set_sum Supplier.low_stock_items) in Hl.
    cbn [Supplier.products Supplier.low_stock_items] in Hp, Hl.
    assert (Hp' : forall o : option Supplier.stats,
              from_option Supplier.products 0 o
              = Supplier.products (default Supplier.new o))
      by (intros [?|]; reflexivity).
    assert (Hl' : forall o : option Supplier.stats,
              from_option Supplier.low_stock_items 0 o
              = Supplier.low_stock_items (default Supplier.new o))
      by (intros [?|]; reflexivity).
    rewrite Hp' in Hp. rewrite Hl' in Hl.
    split; [rewrite Hp; cbn [length]; lia|].
    unfold get_low_stock_items in Hi |- *. cbn [filterM].
    rewrite Ha0, Ha3, Hi. cbn.
    eexists. split; [reflexivity|].
    rewrite Hl. destruct (q <=? r); cbn [length]; lia.
Qed.

Lemma ascii_compare_trans a b c :
  Ascii.compare a b = Lt -> Ascii.compare b c = Lt -> Ascii.compare a c = Lt.
Proof.
  unfold Ascii.compare. rewrite !N.compare_lt_iff. lia.
Qed.

Lemma ascii_compare_Eq a b : Ascii.compare a b = Eq -> a = b.
Proof.
  unfold Ascii.compare. intros H. apply N.compare_eq in H.
  rewrite <- (ascii_N_embedding a), <- (ascii_N_embedding b). congruence.
Qed.

Lemma string_compare_trans a : forall b c,
  String.compare a b = Lt -> String.compare b c = Lt -> String.compare a c = Lt.
Proof.
  induction a as [|x a IH]; intros [|y b] [|z c]; simpl; try congruence.
  destruct (Ascii.compare x y) eqn:Exy; try discriminate;
    destruct (Ascii.compare y z) eqn:Eyz; try discriminate; intros H1 H2.
  - apply ascii_compare_Eq in Exy as ->. rewrite Eyz. eauto.
  - apply ascii_compare_Eq in Exy as ->. rewrite Eyz. reflexivity.
  - apply ascii_compare_Eq in Eyz as ->. rewrite Exy. reflexivity.
  - rewrite (ascii_compare_trans _ _ _ Exy Eyz). reflexivity.
Qed.

Lemma str_lt_trans a b c : str_lt a b -> str_lt b c -> str_lt a c.
Proof.
  unfold str_lt, String.ltb. intros H1 H2.
  destruct (String.compare a b) eqn:E1; try discriminate.
  destruct (String.compare b c) eqn:E2; try discriminate.
  rewrite (string_compare_trans _ _ _ E1 E2). reflexivity.
Qed.

Lemma str_lt_total a b : String.ltb a b = false -> a <> b -> str_lt b a.
Proof.
  unfold str_lt, String.ltb. intros H Hne.
  rewrite String.compare_antisym.
  destruct (String.compare a b) eqn:E; try discriminate; [|reflexivity].
  apply String.compare_eq_iff in E. contradiction.
Qed.

Lemma insert_asc_perm {V} (x : string * V) l :
  Permutation (Py.insert_asc x l) (x :: l).
Proof.
  induction l as [|y l IH]; simpl; [reflexivity|].
  destruct (String.ltb y.1 x.1); [|reflexivity].
  rewrite IH. apply perm_swap.
Qed.

Lemma sorted_items_perm {V} (d : list (string * V)) :
  Permutation (Py.sorted_items d) d.
Proof.
  induction d as [|x d IH]; simpl; [reflexivity|].
  rewrite insert_asc_perm, IH. reflexivity.
Qed.

Lemma insert_asc_sorted {V} (x : string * V) l :
  Forall (fun y => y.1 <> x.1) l ->
  StronglySorted str_lt (map fst l) ->
  StronglySorted str_lt (map fst (Py.insert_asc x l)).
Proof.
  induction l as [|y l IH]; simpl; intros Hne Hs.
  - constructor; constructor.
  - apply Forall_cons in Hne as [Hy Hne].
    apply StronglySorted_inv in Hs as [Hs Hall].
    destruct (String.ltb y.1 x.1) eqn:E; simpl.
    + constructor; [apply IH; assumption|].
      apply List.Forall_forall. intros k Hk.
      apply in_map_iff in Hk as (z & <- & Hz).
      apply (Permutation_in _ (insert_asc_perm x l)) in Hz as [<-|Hz]; [exact E|].
      rewrite List.Forall_forall in Hall. apply Hall, in_map, Hz.
    + assert (Hxy : str_lt x.1 y.1) by (apply str_lt_total; [exact E | exact Hy]).
      constructor; [constructor; assumption|].
      constructor; [exact Hxy|].
      eapply List.Forall_impl; [|exact Hall].
      intros k Hk. eapply str_lt_trans; eassumption.
Qed.

Lemma sorted_items_sorted {V} (d : list (string * V)) :
  NoDup (map fst d) -> StronglySorted str_lt (map fst (Py.sorted_items d)).
Proof.
  induction d as [|x d IH]; simpl; intros Hnd; [constructor|].
  apply NoDup_cons in Hnd as [Hx Hnd].
  apply insert_asc_sorted; [|apply IH, Hnd].
  apply Forall_forall. intros y Hy Heq. apply Hx.
  rewrite <- Heq. apply list_elem_of_fmap. exists y. split; [reflexivity|].
  rewrite <- (sorted_items_perm d). exact Hy.
Qed.

Lemma group_loop_NoDup low : forall data data',
  group_loop data low = Ok data' ->
  NoDup (map fst data) -> NoDup (map fst data').
Proof.
  induction low as [|p low IH]; intros data data' H Hnd.
  - injection H as <-. exact Hnd.
  - cbn [group_loop] in H. inv_bind H.
    eapply IH; [exact H|]. apply odict_set_NoDup, Hnd.
Qed.

Lemma group_loop_groups s low : forall data data',
  group_loop data low = Ok data' ->
  default [] (Py.odict_get s data')
  = default [] (Py.odict_get s data) ++ List.filter (has_supplier s) low.
Proof.
  induction low as [|p low IH]; intros data data' H.
  - injection H as <-. simpl. rewrite app_nil_r. reflexivity.
  - cbn [group_loop] in H. inv_bind H. rename a into sp.
    rewrite (IH _ _ H), odict_get_set.
    unfold Py.getitem in Ha.
    destruct (p !! "supplier") as [sp'|] eqn:Hs; [|discriminate].
    injection Ha as ->.
    rewrite (filter_has_supplier_cons s sp p low Hs).
    destruct (decide (sp = s)) as [->|Hne]; [|reflexivity].
    cbn [default id]. rewrite <- app_assoc. reflexivity.
Qed.

Lemma group_loop_keys low : forall data data' s,
  group_loop data low = Ok data' ->
  s ∈ map fst data' ->
  s ∈ map fst data \/ exists p, In p low /\ p !! "supplier" = Some s.
Proof.
  induction low as [|p low IH]; intros data data' s H Hin.
  - injection H as <-. left. exact Hin.
  - cbn [group_loop] in H. inv_bind H. rename a into sp.
    unfold Py.getitem in Ha.
    destruct (p !! "supplier") as [sp'|] eqn:Hs; [|discriminate].
    injection Ha as ->.
    destruct (IH _ _ s H Hin) as [Hk|(p' & Hp' & Hs')].
    + rewrite odict_set_keys in Hk.
      destruct (bool_decide (sp ∈ map fst data)); [left; exact Hk|].
      apply elem_of_app in Hk as [Hk|Hk]; [left; exact Hk|].
      apply list_elem_of_singleton in Hk as ->.
      right. exists p. split; [left; reflexivity | exact Hs].
    + right. exists p'. split; [right; exact Hp' | exact Hs'].
Qed.

Lemma mapM_Forall2 {A B} (f : A -> result B) l : forall r,
  mapM f l = Ok r -> Forall2 (fun x y => f x = Ok y) l r.
Proof.
  induction l as [|x l IH]; simpl; intros r H.
  - injection H as <-. constructor.
  - inv_bind H. inv_bind H. injection H as <-. constructor; auto.
Qed.

Lemma mapM_In {A B} (f : A -> result B) l r y :
  mapM f l = Ok r -> In y r -> exists x, In x l /\ f x = Ok y.
Proof.
  intros H. apply mapM_Forall2 in H.
  induction H as [|x y' l r Hxy _ IH]; simpl; [contradiction|].
  intros [<-|Hin]; [eauto|]. destruct (IH Hin) as (x' & ? & ?). eauto.
Qed.

Lemma mapM_map_fst {A B C} (f : A -> result B) (k : A -> C) l r :
  mapM (fun x => y ← f x; Ok (k x, y)) l = Ok r -> map fst r = map k l.
Proof.
  revert r. induction l as [|x l IH]; simpl; intros r H.
  - injection H as <-. reflexivity.
  - inv_bind H. inv_bind H. inv_bind Ha. injection Ha as <-. injection H as <-.
    simpl. f_equal. apply IH. exact Ha0.
Qed.

Lemma collect_updates_no_id p answer fields : forall updates updates',
  ~ In "product_id" fields ->
  updates !! "product_id" = None ->
  collect_updates p answer fields updates = Ok updates' ->
  updates' !! "product_id" = None.
Proof.
  induction fields as [|f fields IH]; simpl; intros updates updates' Hf Hu H.
  - injection H as <-. exact Hu.
  - inv_bind H. eapply IH; [| |exact H]; [tauto|].
    destruct (String.eqb _ _); [exact Hu|].
    rewrite lookup_insert_ne by (intros ->; tauto). exact Hu.
Qed.

Lemma update_product_ids e id updates m r :
  updates !! "product_id" = None ->
  update_product e id updates m = Ok r ->
  product_ids (inventory r.1) = product_ids (inventory m).
Proof.
  intros Hu H.
  destruct (update_product_inv _ _ _ _ _ H)
    as [->|(l1 & p & l2 & Hinv & _ & Hp & _ & ->)]; [reflexivity|].
  rewrite save_inventory_inventory. cbn [inventory set_inventory].
  rewrite Hinv, !product_ids_app. f_equal. rewrite !product_ids_cons.
  rewrite lookup_insert_ne by discriminate.
  rewrite lookup_union, Hu, Hp. reflexivity.
Qed.

Lemma update_quantity_ids e id delta m r :
  update_quantity e id delta m = Ok r ->
  product_ids (inventory r.1) = product_ids (inventory m).
Proof.
  unfold update_quantity. intros H. inv_bind H.
  destruct a as [p|]; [|injection H as <-; reflexivity].
  destruct (Py.truthy p); [|injection H as <-; reflexivity].
  inv_bind H. destruct (_ <? 0); [injection H as <-; reflexivity|].
  inv_bind H. injection H as <-. cbn [fst].
  eapply update_product_ids; [|exact Ha1]. reflexivity.
Qed.

Lemma product_ids_filter_keeps id inv :
  product_ids (List.filter (keeps id) inv)
  = List.filter (fun i => negb (String.eqb i id)) (product_ids inv).
Proof.
  induction inv as [|p inv IH]; [reflexivity|].
  cbn [List.filter]. unfold keeps at 1.
  destruct (p !! "product_id") as [i|] eqn:Hi.
  - rewrite (product_ids_cons p inv), Hi. cbn [List.filter from_option app].
    destruct (String.eqb_spec i id) as [->|Hne].
    + rewrite bool_decide_true by reflexivity. exact IH.
    + rewrite bool_decide_false by congruence. cbn [negb].
      rewrite (product_ids_cons p _), Hi, IH. reflexivity.
  - rewrite bool_decide_false by discriminate. cbn [negb].
    rewrite !(product_ids_cons p _), Hi. exact IH.
Qed.

Lemma delete_product_ids e id m r :
  delete_product e id m = Ok r ->
  product_ids (inventory r.1)
  = List.filter (fun i => negb (String.eqb i id)) (product_ids (inventory m)).
Proof.
  intros H. destruct (delete_product_cases _ _ _ _ H) as [[-> _]|[-> E]].
  - cbn [fst]. rewrite save_inventory_inventory. cbn [inventory set_inventory].
    apply product_ids_filter_keeps.
  - cbn [fst]. rewrite <- product_ids_filter_keeps, E. reflexivity.
Qed.

Lemma handle_update_product_ids e line answer m r :
  handle_update_product e line answer m = Ok r ->
  product_ids (inventory r.1) = product_ids (inventory m).
Proof.
  unfold handle_update_product. intros H. inv_bind H.
  destruct a as [p|]; [|injection H as <-; reflexivity].
  destruct (Py.truthy p); [|injection H as <-; reflexivity].
  inv_bind H. rename a into updates.
  destruct (Py.truthy updates); [|injection H as <-; reflexivity].
  inv_bind H. injection H as <-. cbn [fst].
  eapply update_product_ids; [|exact Ha1].
  eapply collect_updates_no_id; [| |exact Ha0]; [|apply lookup_empty].
  unfold update_fields. cbn. intuition discriminate.
Qed.

Lemma handle_update_quantity_ids e line change m r :
  handle_update_quantity e line change m = Ok r ->
  product_ids (inventory r.1) = product_ids (inventory m).
Proof.
  unfold handle_update_quantity. intros H. inv_bind H.
  destruct a as [p|]; [|injection H as <-; reflexivity].
  destruct (Py.truthy p); [|injection H as <-; reflexivity].
  inv_bind H.
  destruct (Py.int (Py.strip change)) as [d|x]; cbn in H.
  - destruct (update_quantity e (Py.strip line) d m) as [r'|x] eqn:Hu.
    + injection H as <-. cbn [fst]. eapply update_quantity_ids, Hu.
    + destruct x; try discriminate. injection H as <-. reflexivity.
  - destruct x; try discriminate. injection H as <-. reflexivity.
Qed.

Lemma handle_delete_product_ids `{U : Py.Unicode} e line confirm m r :
  handle_delete_product e line confirm m = Ok r ->
  (r.2 = Done true /\
   Py.lower (Py.strip confirm) = "yes" /\
   product_ids (inventory r.1)
   = List.filter (fun i => negb (String.eqb i (Py.strip line)))
       (product_ids (inventory m))) \/
  (r.1 = m /\ r.2 <> Done true).
Proof.
  unfold handle_delete_product. intros H. inv_bind H.
  destruct a as [p|]; [|injection H as <-; right; split; [reflexivity|discriminate]].
  destruct (Py.truthy p);
    [|injection H as <-; right; split; [reflexivity|discriminate]].
  destruct (String.eqb_spec (Py.lower (Py.strip confirm)) "yes") as [Hyes|Hno];
    [|injection H as <-; right; split; [reflexivity|discriminate]].
  inv_bind H. injection H as <-. cbn [fst snd]. rename a into r.
  left. split; [|split; [exact Hyes | eapply delete_product_ids, Ha0]].
  destruct (delete_product_cases _ _ _ _ Ha0) as [[-> _]|[-> E]]; [reflexivity|].
  exfalso. apply get_product_Some in Ha as (l1 & l2 & Hinv & _ & Hp).
  pose proof (filter_keeps_no_id (Py.strip line) (inventory m)) as Hno.
  rewrite E, Hinv in Hno. apply Forall_app in Hno as [_ Hno].
  apply Forall_cons in Hno as [Hno _]. contradiction.
Qed.

Lemma filter_NoDup {A} (f : A -> bool) (l : list A) :
  NoDup l -> NoDup (List.filter f l).
Proof.
  induction 1 as [|x l Hx Hnd IH]; simpl; [constructor|].
  destruct (f x); [|exact IH]. constructor; [|exact IH].
  intros Hin. apply Hx. apply list_elem_of_In in Hin.
  apply filter_In in Hin as [Hin _]. apply list_elem_of_In. exact Hin.
Qed.

Lemma dispatch_unique `{U : Py.Unicode} m a m' :
  unique_ids (inventory m) -> dispatch m a = Ok m' -> unique_ids (inventory m').
Proof.
  intros Hu H. destruct a as [r|e line answer|e line confirm|e line change];
    cbn [dispatch] in H.
  - injection H as <-. apply handle_add_product_unique, Hu.
  - inv_bind H. injection H as <-. unfold unique_ids.
    rewrite (handle_update_product_ids _ _ _ _ _ Ha). exact Hu.
  - inv_bind H. injection H as <-. unfold unique_ids.
    destruct (handle_delete_product_ids _ _ _ _ _ Ha) as [(_ & _ & ->)|[-> _]];
      [apply filter_NoDup, Hu | exact Hu].
  - inv_bind H. injection H as <-. unfold unique_ids.
    rewrite (handle_update_quantity_ids _ _ _ _ _ Ha). exact Hu.
Qed.


(** ** The claims *)

(** C1 fails for [add_product]: it has no check of the id.  Adding a record
    whose id is in the store appends it: the store grows by one record and
    two of its records share the id. *)
Lemma add_product_appends_duplicate :
  get_product "P001" (inventory scenario) = Ok (Some P001) /\
  length (inventory (add_product env0 P001 scenario))
    = S (length (inventory scenario)) /\
  ~ unique_ids (inventory (add_product env0 P001 scenario)).
Proof.
  split; [reflexivity|]. split; [reflexivity|].
  intros H. unfold unique_ids in H.
  assert (E : product_ids (inventory (add_product env0 P001 scenario))
              = ["P001"; "P002"; "P001"]) by reflexivity.
  rewrite E in H. apply NoDup_cons in H as [H _]. apply H.
  apply list_elem_of_In. simpl. auto.
Qed.

(** C1, as the code has it.  The check of the id is made by the handler of
    the command line: [handle_add_product] on an id that is in the store
    leaves the manager unchanged and, when the eight values are filled in,
    reports that the id exists; a store without a shared id stays so under
    [handle_add_product], hence under any sequence of requests. *)
Theorem handle_add_product_keeps_ids_unique (m : manager) :
  (forall e id name cat qty price reorder sup loc p,
     get_product id (inventory m) = Ok (Some p) ->
     (handle_add_product e id name cat qty price reorder sup loc m).1 = m /\
     (forallb (fun v => negb (String.eqb v ""))
        [id; name; cat; qty; price; reorder; sup; loc] = true ->
      (handle_add_product e id name cat qty price reorder sup loc m).2
        = AlreadyExists)) /\
  (forall requests,
     unique_ids (inventory m) ->
     unique_ids (inventory (fold_left handle_request requests m))).
Proof.
  split.
  - intros e id name cat qty price reorder sup loc p Hget.
    unfold handle_add_product. rewrite Hget, (found_truthy _ _ _ Hget).
    split.
    + match goal with |- context [negb (forallb ?f ?l)] =>
        destruct (negb (forallb f l)) end; reflexivity.
    + intros ->. reflexivity.
  - intros requests. revert m. induction requests as [|r rs IH]; intros m Hu.
    + exact Hu.
    + simpl. apply IH. apply handle_add_product_unique, Hu.
Qed.

Lemma handle_add_product_witness :
  (handle_add_product env0 "P001" "Laptop" "Electronics" "1" "100" "5"
     "Acme" "A-1" scenario) = (scenario, AlreadyExists) /\
  unique_ids (inventory (fold_left handle_request
     [ {| req_env := env0; req_id := "P003"; req_name := "Desk";
          req_category := "Furniture"; req_quantity := "2";
          req_unit_price := "80"; req_reorder_level := "1";
          req_supplier := "Acme"; req_location := "B-2" |};
       {| req_env := env0; req_id := "P003"; req_name := "Chair";
          req_category := "Furniture"; req_quantity := "4";
          req_unit_price := "40"; req_reorder_level := "1";
          req_supplier := "Acme"; req_location := "B-3" |} ]
     scenario)).
Proof.
  pose proof (handle_add_product_keeps_ids_unique scenario) as [H1 H2].
  split.
  - destruct (H1 env0 "P001" "Laptop" "Electronics" "1" "100" "5" "Acme" "A-1"
                P001 eq_refl) as [Ha Hb].
    rewrite (surjective_pairing (handle_add_product _ _ _ _ _ _ _ _ _ _)).
    rewrite Ha, (Hb eq_refl). reflexivity.
  - apply H2. unfold unique_ids.
    assert (E : product_ids (inventory scenario) = ["P001"; "P002"]) by reflexivity.
    rewrite E. apply NoDup_cons. split; [|apply NoDup_singleton].
    intros Hin. apply list_elem_of_singleton in Hin. discriminate.
Defined.

(** C2.  The code does not keep the invariant on every mutation.
    [update_quantity] refuses a change that would take a quantity below zero,
    but [add_product] and [update_product], and the handlers of the command
    line in front of them, store the quantity they are given without looking
    at it.  On the store of the scenario, whose quantities are 10 and 5:
    taking 15 units from [P001] is refused and leaves the manager as it is;
    a record with the quantity [-5] is added, by [add_product] and by
    [handle_add_product], and [update_product] writes the quantity [-5] to
    [P001]; the store then has a record with a negative quantity. *)
Lemma add_and_update_store_negative_quantity :
  quantities_nonneg (inventory scenario) /\
  update_quantity env0 "P001" (-15) scenario = Ok (scenario, false) /\
  ~ quantities_nonneg
      (inventory (add_product env0
                    (record "P003" "Desk" "Furniture" "-5" "80" "1") scenario)) /\
  (let r := handle_add_product env0 "P003" "Desk" "Furniture" "-5" "80" "1"
              "Acme" "A-1" scenario in
   r.2 = Added /\ ~ quantities_nonneg (inventory r.1)) /\
  exists m', update_product env0 "P001" {["quantity" := "-5"]} scenario
             = Ok (m', true) /\
             ~ quantities_nonneg (inventory m') /\
             exists p', get_product "P001" (inventory m') = Ok (Some p') /\
                        int_field p' "quantity" = Ok (-5).
Proof.
  split; [reflexivity|]. split; [reflexivity|]. split; [|split].
  - unfold quantities_nonneg. vm_compute. discriminate.
  - split; [reflexivity|]. unfold quantities_nonneg. vm_compute. discriminate.
  - eexists. split; [reflexivity|]. split.
    + unfold quantities_nonneg. vm_compute. discriminate.
    + eexists. split; reflexivity.
Qed.

(** C3 fails on the value returned: [update_quantity] returns the flag
    [True], not the new quantity.  Adding 5 to the 10 units of [P001]
    succeeds and returns [True], which is not 15. *)
Lemma update_quantity_returns_flag :
  int_field P001 "quantity" = Ok 10 /\
  (exists m', update_quantity env0 "P001" 5 scenario = Ok (m', true)) /\
  ~ returns_new_quantity (update_quantity env0 "P001" 5 scenario) (10 + 5).
Proof.
  assert (E : exists m', update_quantity env0 "P001" 5 scenario = Ok (m', true)).
  { eexists. apply (update_quantity_accept env0 "P001" 5 scenario [] P001 [P002] 10);
      [reflexivity | constructor | reflexivity | reflexivity | lia]. }
  split; [reflexivity|]. split; [exact E|].
  destruct E as [m' E]. intros (m'' & b & H & Hb). rewrite E in H.
  assert (Hflag : b = true) by congruence. rewrite Hflag in Hb. discriminate.
Qed.

(** C3, as the code has it.  For a store in which [get_product] finds the
    record [p] with the integer quantity [cur]: when [cur + delta < 0],
    [update_quantity] returns [False] and the manager is unchanged;
    otherwise it returns [True], the record found becomes [p] with
    [quantity] set to the decimal string of [cur + delta] (and
    [last_updated] to the date), the other records stay as they were, and
    the quantity read back from the store is [cur + delta]. *)
Theorem update_quantity_checks_sign (e : env) (id : string) (delta : Z)
  (m : manager) (p : product) (cur : Z) :
  get_product id (inventory m) = Ok (Some p) ->
  int_field p "quantity" = Ok cur ->
  (cur + delta < 0 -> update_quantity e id delta m = Ok (m, false)) /\
  (0 <= cur + delta ->
   exists m' l1 l2 p',
     update_quantity e id delta m = Ok (m', true) /\
     inventory m = l1 ++ p :: l2 /\
     p' = <["last_updated" := today e]> (<["quantity" := Py.str (cur + delta)]> p) /\
     inventory m' = l1 ++ p' :: l2 /\
     get_product id (inventory m') = Ok (Some p') /\
     int_field p' "quantity" = Ok (cur + delta)).
Proof.
  intros Hget Hq. split.
  - intros Hneg. unfold update_quantity. rewrite Hget. simpl.
    rewrite (found_truthy _ _ _ Hget), Hq. simpl.
    destruct (Z.ltb_spec (cur + delta) 0); [reflexivity | lia].
  - intros Hpos.
    destruct (get_product_Some _ _ _ Hget) as (l1 & l2 & Hinv & Hl1 & Hp).
    eexists _, l1, l2, _. split; [|split; [exact Hinv | split; [reflexivity|]]].
    + apply (update_quantity_accept e id delta m l1 p l2 cur); assumption.
    + rewrite save_inventory_inventory. simpl. split; [reflexivity|]. split.
      * rewrite get_product_skip by exact Hl1. apply get_product_here.
        rewrite !lookup_insert_ne by discriminate. exact Hp.
      * rewrite int_field_quantity_updated. apply int_str.
Qed.

Lemma update_quantity_witness :
  update_quantity env0 "P002" (-10) scenario = Ok (scenario, false) /\
  exists m' l1 l2 p',
    update_quantity env0 "P001" (-10) scenario = Ok (m', true) /\
    inventory scenario = l1 ++ P001 :: l2 /\
    p' = <["last_updated" := today env0]> (<["quantity" := Py.str (10 + -10)]> P001) /\
    inventory m' = l1 ++ p' :: l2 /\
    get_product "P001" (inventory m') = Ok (Some p') /\
    int_field p' "quantity" = Ok (10 + -10).
Proof.
  split.
  - apply (update_quantity_checks_sign env0 "P002" (-10) scenario P002 5);
      [reflexivity | reflexivity | lia].
  - apply (update_quantity_checks_sign env0 "P001" (-10) scenario P001 10);
      [reflexivity | reflexivity | lia].
Defined.

(** C4 fails when a deletion empties the store: [save_inventory] returns
    at once on an empty inventory, so the data file keeps the record that
    was deleted. *)
Lemma delete_last_record_not_persisted :
  data_file single = Some (inventory single) /\
  exists m', delete_product env0 "P001" single = Ok (m', true) /\
             inventory m' = [] /\
             data_file m' = Some (inventory single) /\
             data_file m' <> Some (inventory m').
Proof.
  assert (Hinv : inventory single = [<["last_updated" := today env0]> P001])
    by reflexivity.
  assert (Hfile : data_file single = Some (inventory single)).
  { unfold single, add_product.
    rewrite save_inventory_persists, save_inventory_inventory;
      [reflexivity | reflexivity | discriminate |].
    exists (dom (<["last_updated" := today env0]> P001)). repeat constructor. }
  split; [exact Hfile|].
  exists (set_inventory [] single).
  split; [reflexivity|]. split; [reflexivity|]. split; [exact Hfile|].
  cbn [set_inventory data_file inventory]. rewrite Hfile, Hinv. discriminate.
Qed.

(** C4, as the code has it.  When the data file can be written and the
    records of the resulting store all have the same fields, every
    successful [add_product], [update_product] and [update_quantity], and
    every successful [delete_product] that leaves a record in the store, ends
    with the data file holding the in-memory sequence.  A [delete_product]
    that empties the store writes nothing: the data file is left as it
    was. *)
Theorem mutations_persist_nonempty_store (e : env) (m : manager) :
  fs_ok e = true ->
  (forall d, same_fields (inventory (add_product e d m)) ->
             data_file (add_product e d m)
             = Some (inventory (add_product e d m))) /\
  (forall id updates m',
     update_product e id updates m = Ok (m', true) ->
     same_fields (inventory m') -> data_file m' = Some (inventory m')) /\
  (forall id delta m',
     update_quantity e id delta m = Ok (m', true) ->
     same_fields (inventory m') -> data_file m' = Some (inventory m')) /\
  (forall id m',
     delete_product e id m = Ok (m', true) ->
     (inventory m' <> [] -> same_fields (inventory m') ->
      data_file m' = Some (inventory m')) /\
     (inventory m' = [] -> data_file m' = data_file m)).
Proof.
  intros He. split; [|split; [|split]].
  - intros d. rewrite add_product_inventory. intros Hs. unfold add_product.
    rewrite save_inventory_persists; [reflexivity | exact He | | exact Hs].
    simpl. destruct (inventory m); discriminate.
  - intros id updates m' H.
    destruct (update_product_inv _ _ _ _ _ H)
      as [E|(l1 & p & l2 & _ & _ & _ & _ & E)]; [discriminate|].
    simpl in E. subst m'. rewrite save_inventory_inventory. simpl. intros Hs.
    rewrite save_inventory_persists; [reflexivity | exact He | | exact Hs].
    simpl. destruct l1; discriminate.
  - intros id delta m' H.
    destruct (update_quantity_saved _ _ _ _ _ H) as (inv' & Hne & ->).
    rewrite save_inventory_inventory. simpl. intros Hs.
    rewrite save_inventory_persists; [reflexivity | exact He | exact Hne | exact Hs].
  - intros id m' H. unfold delete_product in H. inv_bind H. rename a into kept.
    simpl in H. destruct (_ <? _)%nat; [|discriminate]. injection H as <-.
    rewrite save_inventory_inventory. simpl. split.
    + intros Hne Hs.
      rewrite save_inventory_persists; [reflexivity | exact He | exact Hne | exact Hs].
    + intros ->. rewrite save_inventory_empty by reflexivity. reflexivity.
Qed.

Lemma mutations_persist_witness :
  fs_ok env0 = true /\
  exists m', delete_product env0 "P002" scenario = Ok (m', true) /\
             data_file m' = Some (inventory m').
Proof.
  split; [reflexivity|].
  exists (save_inventory env0 (set_inventory [P001] scenario)).
  assert (H : delete_product env0 "P002" scenario
              = Ok (save_inventory env0 (set_inventory [P001] scenario), true))
    by (vm_compute; reflexivity).
  split; [exact H|].
  destruct (mutations_persist_nonempty_store env0 scenario eq_refl)
    as (_ & _ & _ & Hd).
  apply (Hd "P002" _ H).
  - discriminate.
  - exists (dom P001). repeat constructor.
Defined.

(** C5. Whenever [show_stock_distribution] returns its four buckets, they
    are pairwise disjoint and their union is the record set of the store
    (their concatenation is a permutation of the inventory), and it does
    return them on every store whose records have an integer quantity and a
    reorder level that is a non-negative integer below [2 ^ 53].  A record
    with such a reorder level is in a bucket exactly when it satisfies the
    description of the bucket (critical: [qty = 0] or [qty <= 0.25 *
    reorder]; low: [0.25 * reorder < qty <= reorder]; normal: [reorder < qty
    <= 2 * reorder]; high: [qty > 2 * reorder]); with a reorder level of 0, a
    positive quantity is high and a quantity of 0 is critical. *)
Theorem stock_distribution_partitions (inv : list product) :
  (Forall stock_in_range inv -> exists b, show_stock_distribution inv = Ok b) /\
  forall b, show_stock_distribution inv = Ok b ->
    Permutation (critical b ++ low b ++ normal b ++ high b) inv /\
    (forall lv1 lv2 p, In p (bucket lv1 b) -> In p (bucket lv2 b) -> lv1 = lv2) /\
    (forall lv p q r,
       In p inv ->
       int_field p "quantity" = Ok q -> int_field p "reorder_level" = Ok r ->
       0 <= r < 2 ^ 53 ->
       (In p (bucket lv b) <-> in_bucket lv q r)) /\
    (forall p q,
       In p inv -> int_field p "quantity" = Ok q ->
       int_field p "reorder_level" = Ok 0 ->
       (0 < q -> In p (high b)) /\ (q = 0 -> In p (critical b))).
Proof.
  split.
  - intros Hinv. apply distribution_loop_total.
    eapply Forall_impl; [exact Hinv|]. intros p (q & r & Hq & Hr & Hrange).
    unfold product_level. rewrite Hq, Hr. cbn [mbind result_bind].
    destruct (stock_level_spec q r Hrange) as (lv & -> & _). reflexivity.
  - intros b Hb.
    destruct (stock_distribution_buckets inv b Hb) as (Hf & Hperm & Hdisj).
    split; [exact Hperm|]. split; [exact Hdisj|].
    assert (Hchar : forall lv p q r,
               In p inv ->
               int_field p "quantity" = Ok q ->
               int_field p "reorder_level" = Ok r ->
               0 <= r < 2 ^ 53 ->
               (In p (bucket lv b) <-> in_bucket lv q r)).
    { intros lv p q r Hin Hq Hr Hrange. rewrite Hf, List.filter_In.
      rewrite (has_level_spec lv p q r Hq Hr Hrange). tauto. }
    split; [exact Hchar|].
    intros p q Hin Hq Hr.
    assert (Hrange : 0 <= 0 < 2 ^ 53) by (split; [lia | reflexivity]).
    split.
    + intros Hpos. apply (Hchar High p q 0 Hin Hq Hr Hrange). simpl. lia.
    + intros ->. apply (Hchar Critical p 0 0 Hin Hq Hr Hrange). simpl. lia.
Qed.

Lemma stock_distribution_witness :
  show_stock_distribution levels_store = Ok levels_buckets /\
  Permutation (critical levels_buckets ++ low levels_buckets ++
               normal levels_buckets ++ high levels_buckets) levels_store /\
  (forall lv1 lv2 p,
     In p (bucket lv1 levels_buckets) -> In p (bucket lv2 levels_buckets) ->
     lv1 = lv2).
Proof.
  assert (H : show_stock_distribution levels_store = Ok levels_buckets)
    by reflexivity.
  split; [exact H|].
  destruct (proj2 (stock_distribution_partitions levels_store) levels_buckets H)
    as (Hperm & Hdisj & _).
  split; [exact Hperm | exact Hdisj].
Defined.

(** The range asked of the reorder level is needed for the descriptions of
    the buckets: with a negative reorder level a quantity of 0 is critical
    although [qty > 2 * reorder] holds, and above [2 ^ 53] the product
    [reorder * 0.25] is rounded. *)
Example stock_level_negative_reorder :
  stock_level 0 (-1) = Ok Critical /\ in_bucket High 0 (-1).
Proof. split; [reflexivity | simpl; lia]. Qed.

Example stock_level_rounded_reorder :
  stock_level (2 ^ 53 + 1) (2 ^ 55 + 4) = Ok Low /\
  in_bucket Critical (2 ^ 53 + 1) (2 ^ 55 + 4).
Proof. split; [vm_compute; reflexivity | simpl; lia]. Qed.

(** C6 fails in the binary64 arithmetic of the code: the two sums add the
    same values in different orders, and floating-point addition is not
    associative.  For the prices 0.1, 0.2 and 0.3, the last two in one
    category, [get_total_inventory_value] is [(0.1 + 0.2) + 0.3 =
    0.6000000000000001] while the category totals add up to [0.1 + (0.2 +
    0.3) = 0.6]. *)
Lemma category_totals_differ :
  get_total_inventory_value cents_store
    = Ok (S754_finite false 5404319552844596 (-53)) /\
  category_total_value cents_store
    = Ok (S754_finite false 5404319552844595 (-53)) /\
  Py.feq (S754_finite false 5404319552844595 (-53))
         (S754_finite false 5404319552844596 (-53)) = false.
Proof. split; [vm_compute; reflexivity|]. split; vm_compute; reflexivity. Qed.

(** C6, as the code has it.  The summary has one entry per category present
    in the store, and the [total_value] of a category is
    [get_total_inventory_value] of the records of that category, in store
    order.  [get_total_inventory_value] of the whole store is computed
    whenever the summary is, and the sum of the category totals is equal to it
    when all the records are in one category (and the total is a number). *)
Theorem category_totals_consistent (inv : list product)
  (summary : list (string * category_stats)) :
  get_category_summary inv = Ok summary ->
  NoDup (map fst summary) /\
  (forall c, c ∈ map fst summary <->
             exists p, p ∈ inv /\ p !! "category" = Some c) /\
  (forall c st,
     Py.odict_get c summary = Some st ->
     get_total_inventory_value (List.filter (has_category c) inv)
       = Ok (total_value st)) /\
  (exists t, get_total_inventory_value inv = Ok t /\
     forall c, Forall (fun p : product => p !! "category" = Some c) inv ->
               t <> S754_nan ->
               exists s, category_total_value inv = Ok s /\ Py.feq s t = true).
Proof.
  intros H. unfold get_category_summary in H.
  destruct (summary_loop_keys inv [] summary H NoDup_nil_2) as [Hnd Hkeys].
  split; [exact Hnd|]. split.
  { intros c. rewrite Hkeys. split; [|auto].
    intros [Hc|Hc]; [inversion Hc | exact Hc]. }
  assert (Hcat : forall c st,
             Py.odict_get c summary = Some st ->
             get_total_inventory_value (List.filter (has_category c) inv)
               = Ok (total_value st)).
  { intros c st Hst. pose proof (summary_loop_category c inv [] summary H) as Hc.
    rewrite Hst in Hc. exact Hc. }
  split; [exact Hcat|].
  destruct (summary_loop_total inv [] summary (S754_zero false) H) as [t Ht].
  exists t. split; [exact Ht|]. intros c Hall Hnan.
  unfold category_total_value, get_category_summary. rewrite H.
  cbn [mbind result_bind]. eexists. split; [reflexivity|].
  assert (Hfilter : List.filter (has_category c) inv = inv).
  { clear -Hall. induction Hall as [|p inv Hp _ IH]; simpl; [reflexivity|].
    unfold has_category at 1. rewrite bool_decide_true by exact Hp.
    rewrite IH. reflexivity. }
  destruct summary as [|[k st] rest].
  - (* no category: the store is empty *)
    destruct inv as [|p inv].
    + injection Ht as <-. reflexivity.
    + exfalso. inversion Hall as [|? ? Hp _]; subst.
      assert (Hin : c ∈ map fst (@nil (string * category_stats))).
      { apply Hkeys. right. exists p. split; [left | exact Hp]. }
      inversion Hin.
  - assert (Hk : k = c).
    { assert (Hin : k ∈ map fst ((k, st) :: rest)) by left.
      apply Hkeys in Hin as [Hin|(p & Hp & Hc)]; [inversion Hin|].
      rewrite Forall_forall in Hall. specialize (Hall p Hp). congruence. }
    subst k.
    assert (Hrest : rest = []).
    { destruct rest as [|[k' st'] rest]; [reflexivity|]. exfalso.
      assert (Hin : k' ∈ map fst ((c, st) :: (k', st') :: rest)) by (right; left).
      pose proof Hin as Hin'.
      apply Hkeys in Hin' as [Hin'|(p & Hp & Hc)]; [inversion Hin'|].
      rewrite Forall_forall in Hall. specialize (Hall p Hp).
      assert (k' = c) by congruence. subst k'.
      simpl in Hnd. apply NoDup_cons in Hnd as [Hnd _]. apply Hnd. left. }
    subst rest.
    assert (Hst : total_value st = t).
    { specialize (Hcat c st). simpl in Hcat.
      destruct (decide (c = c)); [|contradiction].
      specialize (Hcat eq_refl). rewrite Hfilter in Hcat.
      unfold get_total_inventory_value in Hcat. congruence. }
    simpl. rewrite Hst. apply feq_fadd_zero, Hnan.
Qed.

Lemma category_totals_witness :
  get_category_summary cents_store = Ok cents_summary /\
  forall c st,
    Py.odict_get c cents_summary = Some st ->
    get_total_inventory_value (List.filter (has_category c) cents_store)
      = Ok (total_value st).
Proof.
  assert (H : get_category_summary cents_store = Ok cents_summary)
    by (vm_compute; reflexivity).
  split; [exact H|].
  exact (proj1 (proj2 (proj2 (category_totals_consistent cents_store
                                 cents_summary H)))).
Defined.



(** The two records of value 1000 come first, in store order. *)
Example top_two_of_ranked_store :
  (fun rows => map (fun row : product * Py.float => row.1 !! "product_id") rows)
    <$> (match show_top_products_by_value 2 ranked_store with
         | Ok rows => Some rows
         | Raise _ => None
         end)
  = Some [Some "R2"; Some "R3"].
Proof. vm_compute. reflexivity. Qed.

(** C8. On a store whose records have an integer quantity and reorder
    level, [get_low_stock_items] returns exactly the records with
    [quantity <= reorder_level], in store order; the threshold is inclusive:
    a record of the store with [quantity = reorder_level] is returned. *)
Theorem low_stock_items_inclusive (inv : list product) :
  Forall has_stock_fields inv ->
  get_low_stock_items inv = Ok (List.filter at_or_below_reorder inv) /\
  (forall p q, In p inv -> int_field p "quantity" = Ok q ->
               int_field p "reorder_level" = Ok q ->
               In p (List.filter at_or_below_reorder inv)).
Proof.
  intros H. split.
  - apply filterM_pure. eapply Forall_impl; [exact H|].
    intros p [Hq Hr]. simpl. unfold at_or_below_reorder.
    destruct (int_field p "quantity") as [q|]; [|discriminate].
    destruct (int_field p "reorder_level") as [r|]; [|discriminate].
    simpl. f_equal. destruct (Z.leb_spec q r).
    + rewrite bool_decide_true by assumption. reflexivity.
    + rewrite bool_decide_false by lia. reflexivity.
  - intros p q Hin Hq Hr. apply List.filter_In. split; [exact Hin|].
    unfold at_or_below_reorder. rewrite Hq, Hr. apply bool_decide_true. lia.
Qed.

Lemma low_stock_items_witness :
  Forall has_stock_fields (inventory scenario) /\
  get_low_stock_items (inventory scenario) = Ok [P002].
Proof.
  assert (H : Forall has_stock_fields (inventory scenario)).
  { repeat constructor. }
  split; [exact H|].
  exact (proj1 (low_stock_items_inclusive (inventory scenario) H)).
Defined.

(** C9. When several records share a [product_id], [get_product] returns the
    first of them in store order and [update_product] changes that first
    record only, while [delete_product] removes every record with the id:
    for a store [l1 ++ p :: l2] in which [p] is the first record with the id
    (the records of [l2] are arbitrary and may carry the id as well), the
    look-up gives [p], the update gives [l1 ++ p' :: l2] with [p'] the
    updated [p], and the deletion leaves [l1] and the records of [l2] with
    another id, so that no record with the id remains. *)
Theorem duplicate_ids_get_update_delete (e : env) (id : string)
  (updates : product) (m : manager) (l1 l2 : list product) (p : product) :
  inventory m = l1 ++ p :: l2 ->
  Forall (other_id id) l1 ->
  p !! "product_id" = Some id ->
  Forall (fun q : product => is_Some (q !! "product_id")) l2 ->
  get_product id (inventory m) = Ok (Some p) /\
  (exists m', update_product e id updates m = Ok (m', true) /\
     inventory m' = l1 ++ <["last_updated" := today e]> (updates ∪ p) :: l2) /\
  (exists m', delete_product e id m = Ok (m', true) /\
     inventory m' = l1 ++ List.filter (keeps id) l2 /\
     Forall (fun q : product => q !! "product_id" <> Some id) (inventory m')).
Proof.
  intros Hinv Hl1 Hp Hl2. split; [|split].
  - rewrite Hinv, get_product_skip by exact Hl1. apply get_product_here, Hp.
  - unfold update_product. rewrite Hinv, update_loop_first by assumption. simpl.
    eexists. split; [reflexivity|]. apply save_inventory_inventory.
  - assert (Hf : List.filter (keeps id) (l1 ++ p :: l2)
                 = l1 ++ List.filter (keeps id) l2).
    { rewrite List.filter_app, filter_keeps_other by exact Hl1. simpl.
      unfold keeps at 1. rewrite bool_decide_true by exact Hp. reflexivity. }
    unfold delete_product. rewrite Hinv, delete_filter; simpl.
    + rewrite Hf.
      assert (Hlt : (length (l1 ++ List.filter (keeps id) l2)
                     <? length (l1 ++ p :: l2))%nat = true).
      { apply Nat.ltb_lt. rewrite !length_app. simpl.
        pose proof (filter_keeps_length id l2). lia. }
      rewrite Hlt. eexists. split; [reflexivity|].
      rewrite save_inventory_inventory. simpl. split; [reflexivity|].
      rewrite <- Hf. apply filter_keeps_no_id.
    + apply Forall_app. split.
      * eapply Forall_impl; [exact Hl1 | apply other_id_is_Some].
      * constructor; [rewrite Hp; eauto | exact Hl2].
Qed.

Lemma duplicate_ids_witness :
  get_product "P001" (inventory with_duplicates) = Ok (Some P001) /\
  (exists m', update_product env0 "P001" {["quantity" := "7"]} with_duplicates
              = Ok (m', true) /\
     inventory m' = [P002] ++ <["last_updated" := today env0]>
                                ({["quantity" := "7"]} ∪ P001) :: [P001'; P001]) /\
  (exists m', delete_product env0 "P001" with_duplicates = Ok (m', true) /\
     inventory m' = [P002] ++ List.filter (keeps "P001") [P001'; P001] /\
     Forall (fun q : product => q !! "product_id" <> Some "P001") (inventory m')).
Proof.
  apply (duplicate_ids_get_update_delete env0 "P001" {["quantity" := "7"]}
           with_duplicates [P002] [P001'; P001] P001).
  - reflexivity.
  - repeat constructor. exists "P002". split; [reflexivity | discriminate].
  - reflexivity.
  - repeat constructor; eexists; reflexivity.
Defined.

(** C10. [search_products] with the empty keyword returns the whole
    inventory, in store order: the empty string is a substring of every
    product name, so the test succeeds on the name of every record and its
    category is not looked at.  The search reads the inventory only: it
    returns a list and has no manager to change. *)
Theorem search_empty_keyword `{U : Py.Unicode} (inv : list product) :
  Forall (fun p : product => is_Some (p !! "product_name")) inv ->
  search_products "" inv = Ok inv.
Proof.
  intros H. unfold search_products.
  rewrite (filterM_pure _ (fun _ => true)).
  - f_equal. induction inv as [|x inv IH]; simpl; [reflexivity|].
    f_equal. apply IH. inversion H; assumption.
  - eapply Forall_impl; [exact H|]. intros p [name Hname]. simpl.
    unfold Py.getitem. rewrite Hname. simpl.
    rewrite (Py.lower_ascii_text "" eq_refl). destruct (Py.lower name); reflexivity.
Qed.

Lemma search_empty_keyword_witness :
  Forall (fun p : product => is_Some (p !! "product_name")) (inventory scenario) /\
  search_products (U := ascii_folding) "" (inventory scenario)
  = Ok (inventory scenario).
Proof.
  assert (H : Forall (fun p : product => is_Some (p !! "product_name"))
                     (inventory scenario)).
  { repeat constructor; eexists; reflexivity. }
  split; [exact H | exact (search_empty_keyword (inventory scenario) H)].
Defined.

(** ** Further properties *)

(** X2. A store emptied by [delete_product] comes back.  When the file
    holds the inventory, that is, a manager started on it holds the
    inventory, and the deletion leaves no record, the file is left as it
    was, and a manager started on it afterwards holds the inventory from
    before the deletion. *)
Theorem emptied_store_returns_on_restart (e e' : env) (id : string)
  (m m' : manager) :
  inventory (init e' (data_file m)) = inventory m ->
  delete_product e id m = Ok (m', true) -> inventory m' = [] ->
  data_file m' = data_file m /\
  inventory (init e' (data_file m')) = inventory m.
Proof.
  intros Hfile Hdel Hempty.
  destruct (delete_product_cases _ _ _ _ Hdel) as [[E _]|[E _]]; [|discriminate].
  injection E as ->. rewrite save_inventory_inventory in Hempty.
  cbn [inventory set_inventory] in Hempty.
  rewrite Hempty, save_inventory_empty by reflexivity.
  cbn [data_file set_inventory]. split; [reflexivity | exact Hfile].
Qed.

Lemma emptied_store_witness :
  exists m', delete_product env0 "P001" single = Ok (m', true) /\
             inventory m' = [] /\
             data_file m' = data_file single /\
             inventory (init env0 (data_file m')) = inventory single.
Proof.
  exists (set_inventory [] single).
  assert (Hdel : delete_product env0 "P001" single
                 = Ok (set_inventory [] single, true)) by reflexivity.
  split; [exact Hdel|]. split; [reflexivity|].
  apply (emptied_store_returns_on_restart env0 env0 "P001" single _);
    [| exact Hdel | reflexivity].
  assert (Hfile : data_file single = Some (inventory single)).
  { unfold single, add_product.
    rewrite save_inventory_persists, save_inventory_inventory;
      [reflexivity | reflexivity | discriminate |].
    exists (dom (<["last_updated" := today env0]> P001)). repeat constructor. }
  rewrite Hfile. reflexivity.
Defined.

(** X3. An id that no record has: [get_product] returns [None], and
    [update_product], [delete_product] and [update_quantity] return [False]
    and leave the manager, the data file included, as it is. *)
Theorem unknown_id_changes_nothing (e : env) (id : string) (m : manager) :
  Forall (other_id id) (inventory m) ->
  get_product id (inventory m) = Ok None /\
  (forall updates, update_product e id updates m = Ok (m, false)) /\
  delete_product e id m = Ok (m, false) /\
  (forall delta, update_quantity e id delta m = Ok (m, false)).
Proof.
  intros H. assert (Hget : get_product id (inventory m) = Ok None)
    by (apply get_product_None, H).
  split; [exact Hget|]. split; [|split].
  - intros updates. unfold update_product.
    rewrite (update_loop_unknown e id updates _ H). reflexivity.
  - apply delete_unknown, H.
  - intros delta. unfold update_quantity. rewrite Hget. reflexivity.
Qed.

Lemma unknown_id_witness :
  get_product "P009" (inventory scenario) = Ok None /\
  (forall updates, update_product env0 "P009" updates scenario = Ok (scenario, false)) /\
  delete_product env0 "P009" scenario = Ok (scenario, false) /\
  (forall delta, update_quantity env0 "P009" delta scenario = Ok (scenario, false)).
Proof.
  apply (unknown_id_changes_nothing env0 "P009" scenario).
  repeat (apply Forall_cons_2; [eexists; split; [reflexivity | discriminate]|]).
  apply Forall_nil_2.
Defined.

(** X4. After a [delete_product] that returned [True] every record of the id
    is gone and the others are kept in order: the id is not found, a second
    deletion returns [False] and changes nothing, and the look-up of every
    other id answers as before. *)
Theorem deleted_id_is_gone (e : env) (id : string) (m m' : manager) :
  delete_product e id m = Ok (m', true) ->
  inventory m' = List.filter (keeps id) (inventory m) /\
  get_product id (inventory m') = Ok None /\
  delete_product e id m' = Ok (m', false) /\
  (forall id', id' <> id ->
               get_product id' (inventory m') = get_product id' (inventory m)).
Proof.
  intros Hdel. pose proof (delete_all_have_id _ _ _ _ Hdel) as Hid.
  destruct (delete_product_cases _ _ _ _ Hdel) as [[E _]|[E _]]; [|discriminate].
  injection E as ->. rewrite save_inventory_inventory.
  cbn [inventory set_inventory].
  pose proof (filter_keeps_others id _ Hid) as Hoth.
  split; [reflexivity|]. split; [apply get_product_None, Hoth|]. split.
  - apply delete_unknown. rewrite save_inventory_inventory. exact Hoth.
  - intros id' Hne. apply get_product_filter_other; assumption.
Qed.

Lemma deleted_id_witness :
  exists m', delete_product env0 "P001" with_duplicates = Ok (m', true) /\
    inventory m' = [P002] /\
    get_product "P001" (inventory m') = Ok None /\
    delete_product env0 "P001" m' = Ok (m', false).
Proof.
  assert (H : delete_product env0 "P001" with_duplicates
              = Ok (save_inventory env0 (set_inventory [P002] with_duplicates), true))
    by reflexivity.
  eexists. split; [exact H|].
  destruct (deleted_id_is_gone env0 "P001" with_duplicates _ H) as (H1 & H2 & H3 & _).
  split; [reflexivity|]. split; [exact H2 | exact H3].
Defined.

(** X5. What a successful [update_product] changes: the first record of the
    id, at its place in the store.  Its [last_updated] is the date of the
    day, even when the updates give one; every other field has the value of
    the updates where they give one and its old value otherwise; and the ids
    of the store are unchanged unless the updates give a [product_id]. *)
Theorem update_product_merges (e : env) (id : string) (updates : product)
  (m m' : manager) :
  update_product e id updates m = Ok (m', true) ->
  exists l1 p l2 p',
    inventory m = l1 ++ p :: l2 /\
    Forall (other_id id) l1 /\ p !! "product_id" = Some id /\
    inventory m' = l1 ++ p' :: l2 /\
    p' !! "last_updated" = Some (today e) /\
    (forall k, k <> "last_updated" ->
               p' !! k = match updates !! k with
                         | Some v => Some v
                         | None => p !! k
                         end) /\
    (updates !! "product_id" = None ->
     product_ids (inventory m') = product_ids (inventory m)).
Proof.
  intros H.
  destruct (update_product_inv _ _ _ _ _ H)
    as [E|(l1 & p & l2 & Hinv & Hl1 & Hp & _ & E)]; [discriminate|].
  cbn [fst] in E. subst m'.
  exists l1, p, l2, (<["last_updated" := today e]> (updates ∪ p)).
  split; [exact Hinv|]. split; [exact Hl1|]. split; [exact Hp|].
  rewrite save_inventory_inventory. cbn [inventory set_inventory].
  split; [reflexivity|]. split; [apply lookup_insert_eq|]. split.
  - intros k Hk. rewrite lookup_insert_ne by congruence.
    rewrite lookup_union. destruct (updates !! k), (p !! k); reflexivity.
  - intros Hu. rewrite Hinv, !product_ids_app. f_equal.
    rewrite !product_ids_cons.
    rewrite lookup_insert_ne by discriminate.
    rewrite lookup_union, Hu, Hp. reflexivity.
Qed.

Lemma update_product_merges_witness :
  exists m', update_product env0 "P002" {["supplier" := "Best"]} scenario
             = Ok (m', true) /\
  exists l1 p l2 p',
    inventory scenario = l1 ++ p :: l2 /\
    Forall (other_id "P002") l1 /\ p !! "product_id" = Some "P002" /\
    inventory m' = l1 ++ p' :: l2 /\
    p' !! "last_updated" = Some (today env0) /\
    (forall k, k <> "last_updated" ->
               p' !! k = match ({["supplier" := "Best"]} : product) !! k with
                         | Some v => Some v
                         | None => p !! k
                         end) /\
    (({["supplier" := "Best"]} : product) !! "product_id" = None ->
     product_ids (inventory m') = product_ids (inventory scenario)).
Proof.
  eexists. split; [reflexivity|].
  apply (update_product_merges env0 "P002" {["supplier" := "Best"]} scenario).
  reflexivity.
Defined.

(** X6. Two accepted changes of the quantity of a product make the change by
    their sum: it is accepted too, leads to the same manager, and the
    quantity read back is the first quantity plus both changes. *)
Theorem update_quantity_adds_up (e : env) (id : string) (d1 d2 : Z)
  (m m1 m2 : manager) :
  update_quantity e id d1 m = Ok (m1, true) ->
  update_quantity e id d2 m1 = Ok (m2, true) ->
  update_quantity e id (d1 + d2) m = Ok (m2, true) /\
  exists p cur,
    get_product id (inventory m) = Ok (Some p) /\
    int_field p "quantity" = Ok cur /\
    exists p2, get_product id (inventory m2) = Ok (Some p2) /\
               int_field p2 "quantity" = Ok (cur + d1 + d2).
Proof.
  intros H1 H2.
  destruct (update_quantity_accepted _ _ _ _ _ H1)
    as (l1 & p & l2 & cur & Hinv & Hl1 & Hp & Hq & Hpos1 & ->).
  set (p1 := <["last_updated" := today e]>
               (<["quantity" := Py.str (cur + d1)]> p)) in *.
  assert (Hp1 : p1 !! "product_id" = Some id).
  { unfold p1. rewrite !lookup_insert_ne by discriminate. exact Hp. }
  assert (Hq1 : int_field p1 "quantity" = Ok (cur + d1)).
  { unfold p1. rewrite int_field_quantity_updated. apply int_str. }
  destruct (update_quantity_accepted _ _ _ _ _ H2)
    as (l1' & p' & l2' & cur' & Hinv' & Hl1' & Hp' & Hq' & Hpos2 & E2).
  rewrite save_inventory_inventory in Hinv'. cbn [inventory set_inventory] in Hinv'.
  (* the first record with the id is the one just updated *)
  assert (Hsame : get_product id (l1 ++ p1 :: l2) = Ok (Some p')).
  { rewrite Hinv', get_product_skip by exact Hl1'. apply get_product_here, Hp'. }
  rewrite get_product_skip, (get_product_here id p1 l2 Hp1) in Hsame by exact Hl1.
  injection Hsame as <-. rewrite Hq1 in Hq'. injection Hq' as <-.
  assert (Hlen : l1' = l1 /\ l2' = l2).
  { clear -Hinv' Hl1 Hl1' Hp1.
    revert l1' Hinv' Hl1'. induction Hl1 as [|x l1 (i & Hi & Hne) _ IH]; intros l1' Hinv' Hl1'.
    - destruct l1' as [|y l1']; [injection Hinv' as ->; auto|].
      exfalso. injection Hinv' as -> _. inversion Hl1' as [|? ? (i & Hi & Hne) _]; subst.
      congruence.
    - destruct l1' as [|y l1'].
      + exfalso. injection Hinv' as <- _. congruence.
      + injection Hinv' as -> Hinv'. inversion Hl1'; subst.
        destruct (IH l1' Hinv') as [-> ->]; auto. }
  destruct Hlen as [-> ->].
  assert (Hfinal :
    <["last_updated" := today e]> (<["quantity" := Py.str (cur + d1 + d2)]> p1)
    = <["last_updated" := today e]>
        (<["quantity" := Py.str (cur + (d1 + d2))]> p)).
  { unfold p1. rewrite Z.add_assoc. apply map_eq. intros k.
    destruct (decide (k = "last_updated")) as [->|Hk1];
      [rewrite !lookup_insert_eq; reflexivity|].
    rewrite !(lookup_insert_ne _ "last_updated") by congruence.
    destruct (decide (k = "quantity")) as [->|Hk2];
      [rewrite !lookup_insert_eq; reflexivity|].
    rewrite !(lookup_insert_ne _ "quantity") by congruence.
    rewrite !(lookup_insert_ne _ "last_updated") by congruence.
    rewrite !(lookup_insert_ne _ "quantity") by congruence. reflexivity. }
  split.
  - rewrite (update_quantity_accept e id (d1 + d2) m l1 p l2 cur)
      by (assumption || lia).
    rewrite E2, Hfinal. do 2 f_equal.
    match goal with |- save_inventory e (set_inventory ?inv m) = _ =>
      destruct (save_inventory_set e inv (l1 ++ p1 :: l2) m) as [E|E] end;
      [symmetry; exact E | destruct l1; discriminate].
  - exists p, cur. split.
    { rewrite Hinv, get_product_skip by exact Hl1. apply get_product_here, Hp. }
    split; [exact Hq|]. rewrite E2, save_inventory_inventory.
    cbn [inventory set_inventory]. eexists. split.
    + rewrite get_product_skip by exact Hl1. apply get_product_here.
      rewrite !lookup_insert_ne by discriminate. exact Hp1.
    + rewrite int_field_quantity_updated. apply int_str.
Qed.

Lemma update_quantity_adds_up_witness :
  exists m1 m2,
    update_quantity env0 "P001" (-5) scenario = Ok (m1, true) /\
    update_quantity env0 "P001" 5 m1 = Ok (m2, true) /\
    update_quantity env0 "P001" (-5 + 5) scenario = Ok (m2, true).
Proof.
  pose proof (update_quantity_accept env0 "P001" (-5) scenario [] P001 [P002] 10
                eq_refl (Forall_nil_2 _) eq_refl eq_refl ltac:(lia)) as H1.
  match type of H1 with _ = Ok (?m1, true) =>
    pose proof (update_quantity_accept env0 "P001" 5 m1 [] _ [P002] 5
                  (save_inventory_inventory _ _) (Forall_nil_2 _) eq_refl
                  eq_refl ltac:(lia)) as H2
  end.
  eexists _, _. split; [exact H1|]. split; [exact H2|].
  exact (proj1 (update_quantity_adds_up env0 "P001" (-5) 5 scenario _ _ H1 H2)).
Defined.

(** X7. [get_product] after [add_product]: a record added under a new id is
    found, with the date of the day as [last_updated]; a record added under
    an id of the store is shadowed by the record that was there; the look-up
    of every other id answers as before. *)
Theorem add_then_get (e : env) (d : product) (id : string) (m : manager) :
  d !! "product_id" = Some id ->
  (get_product id (inventory m) = Ok None ->
   get_product id (inventory (add_product e d m))
   = Ok (Some (<["last_updated" := today e]> d))) /\
  (forall p, get_product id (inventory m) = Ok (Some p) ->
             get_product id (inventory (add_product e d m)) = Ok (Some p)) /\
  (forall id', id' <> id ->
               get_product id' (inventory (add_product e d m))
               = get_product id' (inventory m)).
Proof.
  intros Hd. rewrite add_product_inventory.
  assert (Hnew : (<["last_updated" := today e]> d) !! "product_id" = Some id)
    by (rewrite lookup_insert_ne by discriminate; exact Hd).
  split; [|split].
  - intros Hnone. apply get_product_None in Hnone.
    rewrite get_product_skip by exact Hnone. apply get_product_here, Hnew.
  - intros p Hp. destruct (get_product_Some _ _ _ Hp) as (l1 & l2 & -> & Hl1 & Hpid).
    rewrite <- app_assoc. rewrite get_product_skip by exact Hl1.
    apply get_product_here, Hpid.
  - intros id' Hne. induction (inventory m) as [|x l IH]; simpl.
    + unfold Py.getitem. rewrite Hnew. simpl.
      destruct (decide (id = id')); [congruence | reflexivity].
    + destruct (Py.getitem x "product_id") as [i|]; simpl; [|reflexivity].
      destruct (decide (i = id')); [reflexivity | exact IH].
Qed.

Lemma add_then_get_witness :
  get_product "P001" (inventory (add_product env0 P001' scenario)) = Ok (Some P001) /\
  get_product "P003"
    (inventory (add_product env0 (record "P003" "Desk" "Furniture" "2" "80" "1")
                  scenario))
  = Ok (Some (<["last_updated" := today env0]>
                (record "P003" "Desk" "Furniture" "2" "80" "1"))).
Proof.
  split.
  - destruct (add_then_get env0 P001' "P001" scenario eq_refl) as (_ & H & _).
    apply H. reflexivity.
  - destruct (add_then_get env0 (record "P003" "Desk" "Furniture" "2" "80" "1")
                "P003" scenario eq_refl) as (H & _).
    apply H. reflexivity.
Defined.

(** X8. The header of the file is taken from the first record.  When a later
    record has a field that the first one lacks, the writer stops at it:
    the file then holds the records before it and nothing after them. *)
Theorem extra_field_truncates_file (e : env) (m : manager)
  (first r : product) (l1 l2 : list product) :
  fs_ok e = true ->
  inventory m = first :: l1 ++ r :: l2 ->
  Forall (fun p : product => dom p ⊆ dom first) l1 ->
  ~ dom r ⊆ dom first ->
  data_file (save_inventory e m)
  = Some (map (Csv.written_row (dom first)) (first :: l1)).
Proof.
  intros He Hinv Hl1 Hr. unfold save_inventory. rewrite Hinv, He.
  cbn [data_file]. f_equal.
  apply (writerows_until (dom first) (first :: l1) r l2); [|exact Hr].
  constructor; [reflexivity | exact Hl1].
Qed.

Lemma extra_field_witness :
  data_file (add_product env0 (record "P003" "Desk" "Furniture" "2" "80" "1") legacy)
  = Some (map (Csv.written_row (dom (delete "last_updated" P001)))
              (inventory legacy)).
Proof.
  unfold add_product.
  apply (extra_field_truncates_file env0 _ (delete "last_updated" P001)
           (<["last_updated" := today env0]>
              (record "P003" "Desk" "Furniture" "2" "80" "1"))
           [delete "last_updated" P002] []).
  - reflexivity.
  - reflexivity.
  - apply Forall_cons_2; [|apply Forall_nil_2].
    eapply bool_decide_eq_true_1. vm_compute. reflexivity.
  - eapply bool_decide_eq_false_1. vm_compute. reflexivity.
Defined.

(** X9. A record without [product_id] in the store.  [delete_product]
    raises [KeyError] for every id; [get_product], [update_product] and
    [update_quantity] raise it for every id that is not found before that
    record, and [get_product] still finds the ids before it. *)
Theorem record_without_id_raises (e : env) (m : manager)
  (l1 l2 : list product) (r : product) :
  inventory m = l1 ++ r :: l2 ->
  Forall (fun p : product => is_Some (p !! "product_id")) l1 ->
  r !! "product_id" = None ->
  (forall id, delete_product e id m = Raise KeyError) /\
  (forall id, Forall (other_id id) l1 ->
     get_product id (inventory m) = Raise KeyError /\
     (forall updates, update_product e id updates m = Raise KeyError) /\
     (forall delta, update_quantity e id delta m = Raise KeyError)) /\
  (forall id p, get_product id l1 = Ok (Some p) ->
                get_product id (inventory m) = Ok (Some p)).
Proof.
  intros Hinv Hl1 Hr. split; [|split].
  - intros id. unfold delete_product. rewrite Hinv.
    rewrite (filterM_raise _ l1 r l2 KeyError); [reflexivity | |].
    + eapply Forall_impl; [exact Hl1|]. intros p [i Hi]. simpl.
      unfold Py.getitem. rewrite Hi. reflexivity.
    + unfold Py.getitem. rewrite Hr. reflexivity.
  - intros id Hoth.
    assert (Hget : get_product id (inventory m) = Raise KeyError).
    { rewrite Hinv, get_product_skip by exact Hoth. simpl.
      unfold Py.getitem. rewrite Hr. reflexivity. }
    split; [exact Hget|]. split.
    + intros updates. unfold update_product. rewrite Hinv.
      assert (Hloop : update_loop e id updates (l1 ++ r :: l2) = Raise KeyError).
      { clear -Hoth Hr. induction Hoth as [|x l (i & Hi & Hne) _ IH]; simpl.
        - unfold Py.getitem. rewrite Hr. reflexivity.
        - unfold Py.getitem. rewrite Hi. simpl.
          destruct (decide (i = id)); [contradiction|].
          rewrite IH. reflexivity. }
      rewrite Hloop. reflexivity.
    + intros delta. unfold update_quantity. rewrite Hget. reflexivity.
  - intros id p Hp. rewrite Hinv.
    destruct (get_product_Some _ _ _ Hp) as (k1 & k2 & -> & Hk1 & Hpid).
    rewrite <- app_assoc. rewrite get_product_skip by exact Hk1.
    apply get_product_here, Hpid.
Qed.

Lemma record_without_id_witness :
  (forall id, delete_product env0 id damaged = Raise KeyError) /\
  get_product "P002" (inventory damaged) = Raise KeyError /\
  get_product "P001" (inventory damaged) = Ok (Some P001).
Proof.
  destruct (record_without_id_raises env0 damaged [P001] [P001']
              (delete "product_id" P002) eq_refl) as (Hd & Hg & Hf).
  - repeat constructor. eexists. reflexivity.
  - reflexivity.
  - split; [exact Hd|]. split.
    + apply (Hg "P002"). repeat constructor.
      exists "P001". split; [reflexivity | discriminate].
    + apply (Hf "P001" P001). reflexivity.
Defined.

(** X10. The two views of low stock agree: for reorder levels in the exact
    range, the records [get_low_stock_items] returns are those of the
    [critical] and [low] buckets of [show_stock_distribution] together, and
    none of them is in [normal] or [high]. *)
Theorem low_stock_is_critical_and_low (inv : list product) (b : buckets)
  (items : list product) :
  Forall stock_in_range inv ->
  show_stock_distribution inv = Ok b ->
  get_low_stock_items inv = Ok items ->
  Permutation items (critical b ++ low b) /\
  (forall p, In p items -> ~ In p (normal b) /\ ~ In p (high b)).
Proof.
  intros Hrange Hb Hitems.
  destruct (stock_distribution_buckets inv b Hb) as (Hf & _ & Hdisj).
  assert (Hfields : Forall has_stock_fields inv).
  { eapply Forall_impl; [exact Hrange|]. intros p (q & r & Hq & Hr & _).
    split; [rewrite Hq | rewrite Hr]; reflexivity. }
  assert (E : items = List.filter at_or_below_reorder inv).
  { unfold get_low_stock_items in Hitems.
    rewrite (filterM_pure _ at_or_below_reorder) in Hitems; [congruence|].
    eapply Forall_impl; [exact Hfields|]. intros p [Hq Hr]. simpl.
    unfold at_or_below_reorder.
    destruct (int_field p "quantity") as [q|]; [|discriminate].
    destruct (int_field p "reorder_level") as [r|]; [|discriminate].
    simpl. f_equal. destruct (Z.leb_spec q r).
    - rewrite bool_decide_true by assumption. reflexivity.
    - rewrite bool_decide_false by lia. reflexivity. }
  assert (Hperm : Permutation items (critical b ++ low b)).
  { subst items. change (critical b) with (bucket Critical b).
    change (low b) with (bucket Low b). rewrite !Hf.
    apply filter_split_perm.
    - eapply Forall_impl; [exact Hrange | apply at_or_below_levels].
    - apply Forall_forall. intros p _.
      destruct (has_level Critical p) eqn:E1, (has_level Low p) eqn:E2;
        try reflexivity.
      pose proof (has_level_unique _ _ _ E1 E2). discriminate. }
  split; [exact Hperm|]. intros p Hp.
  assert (Hin : In p (bucket Critical b) \/ In p (bucket Low b)).
  { apply in_app_or. eapply Permutation_in; [exact Hperm | exact Hp]. }
  split; intros Hn.
  - destruct Hin as [Hin|Hin];
      pose proof (Hdisj _ Normal p Hin Hn); discriminate.
  - destruct Hin as [Hin|Hin];
      pose proof (Hdisj _ High p Hin Hn); discriminate.
Qed.

Lemma low_stock_levels_witness :
  exists items,
    get_low_stock_items levels_store = Ok items /\
    Permutation items (critical levels_buckets ++ low levels_buckets).
Proof.
  eexists. split; [reflexivity|].
  eapply (low_stock_is_critical_and_low levels_store levels_buckets).
  - unfold levels_store.
    repeat (apply Forall_cons_2;
            [do 2 eexists;
             (split; [reflexivity
                     | split; [reflexivity
                              | split; [apply Z.leb_le; reflexivity | reflexivity]]])
            |]).
    apply Forall_nil_2.
  - reflexivity.
  - reflexivity.
Defined.

(** X11. The counts of [get_category_summary]: the [count] of a category is
    the number of its records and its [total_quantity] the sum of their
    quantities; over all categories the counts add up to the number of
    records and the quantities to the quantity of the TOTAL row of
    [show_category_analysis]. *)
Theorem category_counts_add_up (inv : list product)
  (summary : list (string * category_stats)) :
  get_category_summary inv = Ok summary ->
  (forall c st,
     Py.odict_get c summary = Some st ->
     count st = Z.of_nat (length (List.filter (has_category c) inv)) /\
     total_quantity_row (List.filter (has_category c) inv)
       = Ok (total_quantity st)) /\
  Py.sum_int (map (fun kv => count kv.2) summary) = Z.of_nat (length inv) /\
  total_quantity_row inv
    = Ok (Py.sum_int (map (fun kv => total_quantity kv.2) summary)).
Proof.
  intros H. unfold get_category_summary in H. split; [|split].
  - intros c st Hst.
    pose proof (summary_loop_category_counts c inv [] summary H) as Hc.
    rewrite Hst in Hc. cbn in Hc. destruct Hc as (Hcount & t & Ht & Hq).
    split; [lia|]. rewrite Ht. f_equal. lia.
  - destruct (summary_loop_sums inv [] summary H) as (Hc & _).
    rewrite Hc. reflexivity.
  - destruct (summary_loop_sums inv [] summary H) as (_ & t & Ht & Hq).
    rewrite Ht, Hq. reflexivity.
Qed.

Lemma category_counts_witness :
  Py.sum_int (map (fun kv => count kv.2) cents_summary)
    = Z.of_nat (length cents_store) /\
  total_quantity_row cents_store
    = Ok (Py.sum_int (map (fun kv => total_quantity kv.2) cents_summary)).
Proof.
  assert (H : get_category_summary cents_store = Ok cents_summary)
    by (vm_compute; reflexivity).
  destruct (category_counts_add_up cents_store cents_summary H) as (_ & H1 & H2).
  split; [exact H1 | exact H2].
Defined.

(** X12. [get_inventory_by_category] compares the category in full,
    [search_products] looks for a substring of the name or the category,
    both after [str.lower] on either side.  Hence the records of a category
    are among the results of the search for the name of the category, in the
    same order, and every record is in the view of its own category. *)
Theorem category_view_within_search `{U : Py.Unicode} (word : string) (inv : list product) :
  Forall has_search_fields inv ->
  get_inventory_by_category word inv = Ok (List.filter (category_matches word) inv) /\
  search_products word inv = Ok (List.filter (keyword_matches word) inv) /\
  List.filter (category_matches word) inv
    `sublist_of` List.filter (keyword_matches word) inv /\
  (forall p c, In p inv -> p !! "category" = Some c ->
               In p (List.filter (category_matches c) inv)).
Proof.
  intros H. split; [|split; [|split]].
  - apply filterM_pure. eapply Forall_impl; [exact H|].
    intros p [_ [c Hc]]. simpl. unfold Py.getitem, category_matches.
    rewrite Hc. reflexivity.
  - apply filterM_pure. eapply Forall_impl; [exact H|].
    intros p [[n Hn] [c Hc]]. simpl. unfold Py.getitem, keyword_matches.
    rewrite Hn, Hc. simpl.
    destruct (Py.contains (Py.lower word) (Py.lower n)); reflexivity.
  - apply filter_sublist. intros p Hin. unfold category_matches, keyword_matches.
    rewrite Forall_forall in H.
    destruct (H p (proj2 (list_elem_of_In _ _) Hin)) as [[n ->] [c ->]].
    intros E. apply String.eqb_eq in E. rewrite E, contains_refl.
    apply orb_true_r.
  - intros p c Hin Hc. apply List.filter_In. split; [exact Hin|].
    unfold category_matches. rewrite Hc. apply String.eqb_refl.
Qed.

Lemma category_view_witness :
  get_inventory_by_category (U := ascii_folding) "ELECTRONICS" ranked_store
  = Ok (List.filter (category_matches (U := ascii_folding) "ELECTRONICS")
          ranked_store) /\
  List.filter (category_matches (U := ascii_folding) "ELECTRONICS") ranked_store
    `sublist_of`
    List.filter (keyword_matches (U := ascii_folding) "ELECTRONICS") ranked_store.
Proof.
  destruct (category_view_within_search (U := ascii_folding) "ELECTRONICS"
              ranked_store) as (H1 & _ & H3 & _).
  - unfold ranked_store.
    repeat (apply Forall_cons_2; [split; eexists; reflexivity|]).
    apply Forall_nil_2.
  - split; [exact H1 | exact H3].
Defined.

(** X13. [get_inventory_by_supplier] looks for a substring of the supplier
    name: the empty name returns the whole inventory, and for every name the
    result is a part of the inventory, in store order, that has every record
    whose supplier and the name are the same after [str.lower]. *)
Theorem supplier_view_empty_and_exact `{U : Py.Unicode} (inv : list product) :
  Forall (fun p : product => is_Some (p !! "supplier")) inv ->
  get_inventory_by_supplier "" inv = Ok inv /\
  (forall name, exists found,
     get_inventory_by_supplier name inv = Ok found /\
     found `sublist_of` inv /\
     forall p s, In p inv -> p !! "supplier" = Some s ->
                 Py.lower s = Py.lower name -> In p found).
Proof.
  intros H. split.
  - unfold get_inventory_by_supplier. rewrite (filterM_pure _ (fun _ => true)).
    + f_equal. clear H. induction inv as [|x inv IH]; simpl; [reflexivity|].
      rewrite IH. reflexivity.
    + eapply Forall_impl; [exact H|]. intros p [s Hs]. simpl.
      unfold Py.getitem. rewrite Hs. simpl.
      rewrite (Py.lower_ascii_text "" eq_refl), contains_empty. reflexivity.
  - intros name.
    set (g := fun p : product =>
                match p !! "supplier" with
                | Some s => Py.contains (Py.lower name) (Py.lower s)
                | None => false
                end).
    exists (List.filter g inv). split; [|split].
    + apply filterM_pure. eapply Forall_impl; [exact H|]. intros p [s Hs].
      simpl. unfold Py.getitem, g. rewrite Hs. reflexivity.
    + clear. induction inv as [|x inv IH]; simpl; [constructor|].
      destruct (g x); [constructor|constructor]; exact IH.
    + intros p s Hin Hs E. apply List.filter_In. split; [exact Hin|].
      unfold g. rewrite Hs, E. apply contains_refl.
Qed.

Lemma supplier_view_witness :
  get_inventory_by_supplier (U := ascii_folding) "" (inventory scenario)
  = Ok (inventory scenario) /\
  exists found,
    get_inventory_by_supplier (U := ascii_folding) "ACME" (inventory scenario)
    = Ok found /\
    In P002 found.
Proof.
  destruct (supplier_view_empty_and_exact (U := ascii_folding)
              (inventory scenario)) as (H1 & H2).
  - repeat constructor; eexists; reflexivity.
  - split; [exact H1|]. destruct (H2 "ACME") as (found & Hf & _ & Hin).
    exists found. split; [exact Hf|].
    apply (Hin P002 "Acme"); [right; left; reflexivity | reflexivity | reflexivity].
Defined.

(** X14. Each row of the supplier table counts the records of that supplier:
    [products] is their number, [low_stock_items] the number of them at or
    below their reorder level, [total_quantity] the sum of their quantities.
    Each supplier has one row, the [products] of all rows add up to the
    number of records, and the [low_stock_items] of all rows to the number of
    records [get_low_stock_items] returns. *)
Theorem supplier_rows_count_records (inv : list product)
  (rows : list (string * Supplier.stats)) :
  show_supplier_performance inv = Ok rows ->
  NoDup (map fst rows) /\
  (forall s st, In (s, st) rows ->
     let mine := List.filter (has_supplier s) inv in
     Supplier.products st = Z.of_nat (length mine) /\
     Supplier.low_stock_items st
       = Z.of_nat (length (List.filter at_or_below_reorder mine)) /\
     total_quantity_row mine = Ok (Supplier.total_quantity st)) /\
  Py.sum_int (map (fun kv => Supplier.products kv.2) rows)
    = Z.of_nat (length inv) /\
  exists items, get_low_stock_items inv = Ok items /\
    Py.sum_int (map (fun kv => Supplier.low_stock_items kv.2) rows)
      = Z.of_nat (length items).
Proof.
  intros H. unfold show_supplier_performance in H.
  inv_bind H. rename a into data. injection H as <-.
  pose proof (sort_desc_perm (fun kv : string * Supplier.stats =>
                                Supplier.total_value kv.2) data) as Hperm.
  pose proof (supplier_loop_NoDup inv [] data Ha (NoDup_nil_2)) as Hnd.
  split; [|split; [|split]].
  - rewrite Hperm. exact Hnd.
  - intros s st Hin.
    apply (Permutation_in _ Hperm) in Hin.
    pose proof (supplier_loop_counts s inv [] data Ha) as Hc.
    rewrite (odict_get_In s st data Hnd Hin) in Hc. cbn in Hc.
    destruct Hc as (Hp & Hl & t & Ht & Hq).
    cbn. split; [lia|]. split; [lia|]. rewrite Ht. f_equal. lia.
  - destruct (supplier_loop_sums inv [] data Ha) as (Hp & _).
    rewrite (sum_int_perm _ _ (Permutation_map _ Hperm)), Hp. reflexivity.
  - destruct (supplier_loop_sums inv [] data Ha) as (_ & items & Hi & Hl).
    exists items. split; [exact Hi|].
    rewrite (sum_int_perm _ _ (Permutation_map _ Hperm)), Hl. reflexivity.
Qed.

Lemma supplier_rows_witness :
  show_supplier_performance two_suppliers = Ok two_suppliers_rows /\
  Py.sum_int (map (fun kv => Supplier.products kv.2) two_suppliers_rows)
    = Z.of_nat (length two_suppliers) /\
  exists items, get_low_stock_items two_suppliers = Ok items /\
    Py.sum_int (map (fun kv => Supplier.low_stock_items kv.2) two_suppliers_rows)
      = Z.of_nat (length items).
Proof.
  assert (H : show_supplier_performance two_suppliers = Ok two_suppliers_rows)
    by (vm_compute; reflexivity).
  destruct (supplier_rows_count_records two_suppliers two_suppliers_rows H)
    as (_ & _ & H1 & H2).
  split; [exact H|]. split; [exact H1 | exact H2].
Defined.

(** X15. The reorder report.  The message that all products are adequately
    stocked stands for an empty result of [get_low_stock_items]; otherwise
    the suppliers are printed in strictly ascending order, each once, the
    lines of a supplier are those of its low-stock records in the order of
    the store and there is at least one, every low-stock record is under its
    supplier, and the recommended order brings the quantity to twice the
    reorder level and is therefore never less than the reorder level. *)
Theorem reorder_report_groups (inv : list product)
  (report : option (list (string * list recommendation))) :
  show_reorder_recommendations inv = Ok report ->
  exists low_stock,
    get_low_stock_items inv = Ok low_stock /\
    match report with
    | None => low_stock = []
    | Some groups =>
        low_stock <> [] /\
        StronglySorted str_lt (map fst groups) /\
        (forall s lines, In (s, lines) groups ->
           lines <> [] /\
           mapM recommend (List.filter (has_supplier s) low_stock) = Ok lines) /\
        (forall p, In p low_stock ->
           exists s lines, p !! "supplier" = Some s /\ In (s, lines) groups) /\
        (forall s lines r, In (s, lines) groups -> In r lines ->
           rec_current r + rec_order r = 2 * rec_reorder r /\
           rec_reorder r <= rec_order r)
    end.
Proof.
  intros H. unfold show_reorder_recommendations in H.
  inv_bind H. rename a into low_stock. exists low_stock.
  split; [exact Ha|].
  destruct (bool_decide (low_stock = [])) eqn:E.
  { apply bool_decide_eq_true in E. injection H as <-. exact E. }
  apply bool_decide_eq_false in E.
  inv_bind H. rename a into data. inv_bind H. rename a into groups.
  injection H as <-.
  pose proof (group_loop_NoDup _ _ _ Ha0 NoDup_nil_2) as Hnd.
  pose proof (sorted_items_perm data) as Hperm.
  pose proof (mapM_map_fst _ _ _ _ Ha1) as Hkeys.
  assert (Hgroup : forall s lines, In (s, lines) groups ->
            s ∈ map fst data /\
            mapM recommend (List.filter (has_supplier s) low_stock) = Ok lines).
  { intros s lines Hin.
    destruct (mapM_In _ _ _ _ Ha1 Hin) as ([s' ps] & Hin' & Hrec).
    cbn in Hrec. inv_bind Hrec. injection Hrec as -> ->.
    apply (Permutation_in _ Hperm) in Hin'.
    pose proof (group_loop_groups s _ _ _ Ha0) as Hg.
    rewrite (odict_get_In s ps data Hnd Hin') in Hg. cbn in Hg. subst ps.
    split; [|exact Ha2].
    apply list_elem_of_In. apply (in_map fst _ _ Hin'). }
  split; [exact E|]. split; [|split; [|split]].
  - rewrite Hkeys. apply sorted_items_sorted, Hnd.
  - intros s lines Hin. destruct (Hgroup s lines Hin) as [Hk Hl].
    split; [|exact Hl].
    destruct (group_loop_keys _ _ _ s Ha0 Hk) as [Hk'|(p & Hp & Hs)];
      [inversion Hk'|].
    intros ->.
    assert (Hpf : In p (List.filter (has_supplier s) low_stock)).
    { apply filter_In. split; [exact Hp|].
      unfold has_supplier. apply bool_decide_eq_true. exact Hs. }
    destruct (List.filter (has_supplier s) low_stock); [contradiction|].
    cbn in Hl. inv_bind Hl. inv_bind Hl. discriminate.
  - intros p Hp.
    assert (Hs : exists s, p !! "supplier" = Some s).
    { clear -Ha0 Hp. revert Ha0. generalize (@nil (string * list product)).
      induction low_stock as [|p' low IH]; [contradiction|].
      intros data0 H. cbn [group_loop] in H. inv_bind H.
      destruct Hp as [->|Hp]; [|eapply IH; eassumption].
      unfold Py.getitem in Ha. destruct (p !! "supplier"); [eauto|discriminate]. }
    destruct Hs as [s Hs]. exists s.
    pose proof (group_loop_groups s _ _ _ Ha0) as Hg. cbn in Hg.
    assert (Hin : s ∈ map fst data).
    { destruct (Py.odict_get s data) eqn:Eg.
      - apply dec_stable. intros Hn. apply odict_get_None in Hn. congruence.
      - cbn in Hg.
        assert (Hpf : In p (List.filter (has_supplier s) low_stock)).
        { apply filter_In. split; [exact Hp|].
          unfold has_supplier. apply bool_decide_eq_true. exact Hs. }
        rewrite <- Hg in Hpf. contradiction. }
    rewrite <- (sorted_items_perm data), <- Hkeys in Hin.
    apply list_elem_of_In, in_map_iff in Hin as ([s' lines] & Heq & Hin).
    cbn in Heq. subst s'. exists lines. split; [exact Hs | exact Hin].
  - intros s lines r Hin Hr. destruct (Hgroup s lines Hin) as [_ Hl].
    destruct (mapM_In _ _ _ _ Hl Hr) as (p & Hp & Hrec).
    apply filter_In in Hp as [Hp _].
    rewrite (get_low_stock_items_filter _ _ Ha) in Hp.
    apply filter_In in Hp as [_ Hlow].
    unfold recommend in Hrec. inv_bind Hrec. rename a into q.
    inv_bind Hrec. rename a into rl. inv_bind Hrec. inv_bind Hrec.
    injection Hrec as <-. cbn.
    rewrite (at_or_below_reorder_leb p q rl Ha2 Ha3) in Hlow.
    apply Z.leb_le in Hlow. lia.
Qed.

Lemma reorder_report_witness :
  show_reorder_recommendations two_suppliers = Ok (Some two_suppliers_report) /\
  StronglySorted str_lt (map fst two_suppliers_report).
Proof.
  assert (H : show_reorder_recommendations two_suppliers
              = Ok (Some two_suppliers_report)) by (vm_compute; reflexivity).
  destruct (reorder_report_groups two_suppliers (Some two_suppliers_report) H)
    as (low_stock & _ & _ & Hs & _).
  split; [exact H | exact Hs].
Defined.

(** X16. Which ids the store has changes only by adding and deleting.
    [handle_update_product] and [handle_update_quantity] leave the ids of the
    store as they are, whatever is typed: the id is not among the fields
    asked for.  [handle_delete_product] either removes every record of the
    id typed, after the answer [yes] in any case and with spaces around it,
    or leaves the manager as it is.  Hence a store in which no two records
    share an id stays so through every sequence of choices of the main menu
    that returns. *)
Theorem menu_keeps_ids_unique `{U : Py.Unicode} (m : manager) :
  (forall e line answer r,
     handle_update_product e line answer m = Ok r ->
     product_ids (inventory r.1) = product_ids (inventory m)) /\
  (forall e line change r,
     handle_update_quantity e line change m = Ok r ->
     product_ids (inventory r.1) = product_ids (inventory m)) /\
  (forall e line confirm r,
     handle_delete_product e line confirm m = Ok r ->
     (r.2 = Done true /\
      Py.lower (Py.strip confirm) = "yes" /\
      product_ids (inventory r.1)
      = List.filter (fun i => negb (String.eqb i (Py.strip line)))
          (product_ids (inventory m))) \/
     (r.1 = m /\ r.2 <> Done true)) /\
  (forall actions m',
     unique_ids (inventory m) ->
     main_loop m actions = Ok m' ->
     unique_ids (inventory m')).
Proof.
  split; [|split; [|split]].
  - intros e line answer r. apply handle_update_product_ids.
  - intros e line change r. apply handle_update_quantity_ids.
  - intros e line confirm r. apply handle_delete_product_ids.
  - intros actions. revert m.
    induction actions as [|a actions IH]; intros m m' Hu H.
    + injection H as <-. exact Hu.
    + cbn [main_loop] in H. inv_bind H.
      eapply IH; [|exact H]. eapply dispatch_unique; eassumption.
Qed.

Lemma menu_keeps_ids_witness :
  exists m', main_loop (U := ascii_folding) scenario session = Ok m' /\
             unique_ids (inventory m').
Proof.
  destruct (main_loop (U := ascii_folding) scenario session) as [m'|x] eqn:H;
    [|vm_compute in H; discriminate].
  exists m'. split; [reflexivity|].
  destruct (menu_keeps_ids_unique (U := ascii_folding) scenario)
    as (_ & _ & _ & Hu).
  apply (Hu session m'); [|exact H]. unfold unique_ids.
  assert (E : product_ids (inventory scenario) = ["P001"; "P002"]) by reflexivity.
  rewrite E. apply NoDup_cons. split; [|apply NoDup_singleton].
  intros Hin. apply list_elem_of_singleton in Hin. discriminate.
Defined.



(** X18. Which mutations keep the quantities non-negative.  When every
    record of the store has a non-negative integer quantity, this still
    holds after [update_quantity] and after [delete_product], whatever their
    arguments; it holds after [add_product] exactly when the record added has
    a non-negative integer quantity, and after [update_product] when the
    updates give no quantity or a non-negative integer one. *)
Theorem quantities_stay_nonneg (e : env) (m : manager) :
  quantities_nonneg (inventory m) ->
  (forall id delta r, update_quantity e id delta m = Ok r ->
                      quantities_nonneg (inventory r.1)) /\
  (forall id r, delete_product e id m = Ok r ->
                quantities_nonneg (inventory r.1)) /\
  (forall d, quantities_nonneg (inventory (add_product e d m))
             <-> nonneg_quantity (<["last_updated" := today e]> d) = true) /\
  (forall id updates r,
     (forall v, updates !! "quantity" = Some v ->
                exists q, Py.int v = Ok q /\ 0 <= q) ->
     update_product e id updates m = Ok r ->
     quantities_nonneg (inventory r.1)).
Proof.
  intros Hm. repeat split.
  - intros id delta r. apply update_quantity_nonneg, Hm.
  - intros id r. apply delete_product_nonneg, Hm.
  - rewrite add_product_inventory. intros H.
    apply quantities_nonneg_app in H as [_ H].
    apply quantities_nonneg_cons in H as [H _]. exact H.
  - rewrite add_product_inventory. intros H. apply quantities_nonneg_app.
    split; [exact Hm|]. apply quantities_nonneg_cons. split; [exact H | reflexivity].
  - intros id updates r Hu. apply update_product_nonneg; assumption.
Qed.

Lemma quantities_stay_nonneg_witness :
  quantities_nonneg (inventory scenario) /\
  (forall r, update_quantity env0 "P001" (-3) scenario = Ok r ->
             quantities_nonneg (inventory r.1)) /\
  (forall r, delete_product env0 "P002" scenario = Ok r ->
             quantities_nonneg (inventory r.1)).
Proof.
  assert (H : quantities_nonneg (inventory scenario)) by reflexivity.
  destruct (quantities_stay_nonneg env0 scenario H) as (Hq & Hd & _).
  split; [exact H|]. split; [apply Hq | apply Hd].
Defined.
